(** * minio-presign-service: a shallow embedding of [main.go]

    The service is a small HTTP gateway in Go.  A JSON request names a
    bucket and an object key; the handler builds an object path and an
    expiration string, runs the [mc] client as a subprocess, recovers the
    generated URL from the text it prints and optionally rewrites its
    scheme and host.

    Go strings are byte sequences: they are modelled by [string], whose
    characters are the 256 values of [ascii].  Go's [int] fields are
    modelled by [Z]; the code only compares them with zero and prints them,
    so no 64-bit wrap-around can occur.  The Go runtime the handlers talk
    to (environment, JSON decoder, subprocess, [net/url]) is an interface,
    [Platform]; the response writer and the list of spawned commands are
    explicit state. *)

From Stdlib Require Import ZArith NArith String Ascii List Lia Bool DecimalString.
From Stdlib Require DecimalPos DecimalZ.
Import ListNotations.
Open Scope string_scope.

(* ================================================================= *)
(** ** The parts of Go's [strings] and [fmt] packages the service uses *)

Module strings.

Definition code (c : ascii) : N := N_of_ascii c.

(** The six ASCII characters of [unicode.IsSpace]:
    tab, line feed, vertical tab, form feed, carriage return, space. *)
Definition asciiSpace (a : ascii) : bool :=
  let x := code a in
  ((0x09 <=? x) && (x <=? 0x0D) || (x =? 0x20))%N.

(** UTF-8 encodings, two bytes long, of white space: U+0085 and U+00A0. *)
Definition space2 (a b : ascii) : bool :=
  ((code a =? 0xC2) && ((code b =? 0x85) || (code b =? 0xA0)))%N.

(** UTF-8 encodings, three bytes long, of white space: U+1680,
    U+2000..U+200A, U+2028, U+2029, U+202F, U+205F and U+3000. *)
Definition space3 (a b c : ascii) : bool :=
  let x := code a in let y := code b in let z := code c in
  ((x =? 0xE1) && (y =? 0x9A) && (z =? 0x80)
   || (x =? 0xE2) && (y =? 0x80)
      && ((0x80 <=? z) && (z <=? 0x8A) || (z =? 0xA8) || (z =? 0xA9) || (z =? 0xAF))
   || (x =? 0xE2) && (y =? 0x81) && (z =? 0x9F)
   || (x =? 0xE3) && (y =? 0x80) && (z =? 0x80))%N.

(** [trimRunes fwd s] removes every white-space rune at the head of [s].
    With [fwd = false] the bytes of [s] are read in reverse order, which
    is how the end of a string is trimmed. *)
Fixpoint trimRunes (fwd : bool) (s : string) : string :=
  match s with
  | String a r =>
      if asciiSpace a then trimRunes fwd r
      else
        match r with
        | String b r2 =>
            if (if fwd then space2 a b else space2 b a) then trimRunes fwd r2
            else
              match r2 with
              | String c r3 =>
                  if (if fwd then space3 a b c else space3 c b a)
                  then trimRunes fwd r3
                  else s
              | EmptyString => s
              end
        | EmptyString => s
        end
  | EmptyString => s
  end.

Fixpoint rev (s : string) : string :=
  match s with
  | EmptyString => EmptyString
  | String c r => rev r ++ String c EmptyString
  end.

Definition TrimLeftSpace (s : string) : string := trimRunes true s.

Definition TrimRightSpace (s : string) : string := rev (trimRunes false (rev s)).

(** [strings.TrimSpace]: all leading and trailing white space, as defined
    by Unicode, is removed; bytes that are not valid UTF-8 are kept. *)
Definition TrimSpace (s : string) : string := TrimRightSpace (TrimLeftSpace s).

(** [s[n:]] *)
Fixpoint sliceFrom (n : nat) (s : string) : string :=
  match n, s with
  | O, _ => s
  | S n', String _ r => sliceFrom n' r
  | S _, EmptyString => EmptyString
  end.

(** [strings.HasPrefix]: [len(s) >= len(prefix) && s[:len(prefix)] == prefix]. *)
Fixpoint HasPrefix (s prefix : string) {struct prefix} : bool :=
  match prefix, s with
  | EmptyString, _ => true
  | String p ps, String c cs => Ascii.eqb c p && HasPrefix cs ps
  | String _ _, EmptyString => false
  end.

(** [strings.TrimPrefix] *)
Definition TrimPrefix (s prefix : string) : string :=
  if HasPrefix s prefix then sliceFrom (String.length prefix) s else s.

(** [strings.HasSuffix] *)
Definition HasSuffix (s suffix : string) : bool := HasPrefix (rev s) (rev suffix).

(** [strings.TrimSuffix] *)
Definition TrimSuffix (s suffix : string) : string :=
  if HasSuffix s suffix
  then rev (sliceFrom (String.length suffix) (rev s))
  else s.

(** The ASCII part of [strings.ToLower].  Go also maps the upper-case
    letters outside ASCII; those never map to a letter of the word
    "bearer" or to a space, which is all the service looks for in the
    result. *)
Definition lowerByte (a : ascii) : ascii :=
  let x := code a in
  if ((0x41 <=? x) && (x <=? 0x5A))%N then ascii_of_N (x + 0x20) else a.

Fixpoint ToLower (s : string) : string :=
  match s with
  | EmptyString => EmptyString
  | String a r => String (lowerByte a) (ToLower r)
  end.

Definition newline : ascii := ascii_of_N 0x0A.

(** [strings.Split(s, "\n")]: the pieces of [s] between line feeds; an
    empty [s] has the one piece [""]. *)
Fixpoint SplitLines (s : string) : list string :=
  match s with
  | EmptyString => [EmptyString]
  | String c r =>
      if Ascii.eqb c newline then EmptyString :: SplitLines r
      else
        match SplitLines r with
        | l :: ls => String c l :: ls
        | [] => [String c EmptyString]
        end
  end.

(** [strings.Join(lines, "\n")] *)
Fixpoint JoinLines (lines : list string) : string :=
  match lines with
  | [] => EmptyString
  | [l] => l
  | l :: ls => l ++ String newline (JoinLines ls)
  end.


(** [fmt.Sprintf("%d", n)] *)
Definition FormatInt (n : Z) : string := NilZero.string_of_int (Z.to_int n).

End strings.

Import strings.

(* ================================================================= *)
(** ** Data model *)

Record PresignRequest := {
  Bucket : string;
  Folder : string;   (* optional *)
  Key : string;      (* required (file name or object key) *)
  Days : Z;
  Hours : Z;
  Minutes : Z
}.

(** The response's [Bucket] field is named [RespBucket] here: one name
    space cannot hold two projections called [Bucket]. *)
Record PresignResponse := {
  URL : string;
  Object : string;
  RespBucket : string;
  ExpiresIn : string
}.

Record ErrorResponse := { Error : string }.

(** What [writeJSON] is given to encode ([v any]). *)
Inductive Value :=
| ErrorValue (e : ErrorResponse)
| PresignValue (p : PresignResponse).

(** One write to the response body. *)
Inductive Chunk :=
| Bytes (s : string)      (* w.Write([]byte(s)) *)
| JSON (v : Value).       (* json.NewEncoder(w).Encode(v) *)

(** [http.ResponseWriter]: the header map, the status code once it has
    been written, and the body written so far. *)
Record ResponseWriter := {
  Header : list (string * string);
  Code : option Z;
  Body : list Chunk
}.

(** The part of [*http.Request] the handlers read.  [ReqBody] is [None]
    when reading the body fails. *)
Record Request := {
  Method : string;
  Path : string;                 (* r.URL.Path *)
  HeaderGet : string -> string;  (* r.Header.Get *)
  ReqBody : option string
}.

(** [ctx.Err()] after the subprocess returned. *)
Inductive ContextErr := CtxNil | Canceled | DeadlineExceeded.

(** What [cmd.CombinedOutput()] under [context.WithTimeout] leaves behind:
    the captured text, the error ([nil] on exit status zero) with its
    message, and the state of the context. *)
Record CmdResult := {
  Out : string;
  CmdErr : option string;
  CtxErr : ContextErr
}.

(** [url.URL] *)
Record URLt := {
  Scheme : string;
  Opaque : string;
  User : option (string * option string);
  Host : string;
  UPath : string;
  RawPath : string;
  OmitHost : bool;
  ForceQuery : bool;
  RawQuery : string;
  Fragment : string;
  RawFragment : string
}.

(** The Go runtime and standard library behind the handlers. *)
Class Platform := {
  os_Getenv : string -> string;
  json_Decode : string -> option PresignRequest;
  (** [exec.CommandContext(ctx, argv...).CombinedOutput()] with a deadline
      of the given number of seconds *)
  exec_CombinedOutput : Z -> list string -> CmdResult;
  url_Parse : string -> option URLt;
  url_String : URLt -> string
}.

(** The state a handler acts on: its response writer and the commands it
    has spawned, oldest first. *)
Record State := {
  w : ResponseWriter;
  spawned : list (list string)
}.

Definition Handler := Request -> State -> State.

(** [(string, error)] *)
Inductive result :=
| Ok (s : string)
| Err (msg : string).

Definition StatusOK : Z := 200.
Definition StatusBadRequest : Z := 400.
Definition StatusUnauthorized : Z := 401.
Definition StatusMethodNotAllowed : Z := 405.
Definition StatusInternalServerError : Z := 500.
Definition StatusGatewayTimeout : Z := 504.

(* ================================================================= *)
(** ** The response writer *)

Definition Header_Set (k v : string) (rw : ResponseWriter) : ResponseWriter :=
  {| Header := (k, v) :: filter (fun kv => negb (fst kv =? k)) (Header rw);
     Code := Code rw;
     Body := Body rw |}.

(** Only the first [WriteHeader] counts. *)
Definition WriteHeader (status : Z) (rw : ResponseWriter) : ResponseWriter :=
  match Code rw with
  | Some _ => rw
  | None => {| Header := Header rw; Code := Some status; Body := Body rw |}
  end.

(** A write before any [WriteHeader] sends status 200 first. *)
Definition Write (c : Chunk) (rw : ResponseWriter) : ResponseWriter :=
  let rw := WriteHeader StatusOK rw in
  {| Header := Header rw; Code := Code rw; Body := Body rw ++ [c] |}.

Definition onWriter (f : ResponseWriter -> ResponseWriter) (st : State) : State :=
  {| w := f (w st); spawned := spawned st |}.

Definition spawn (argv : list string) (st : State) : State :=
  {| w := w st; spawned := spawned st ++ [argv] |}.

Definition writeJSON (status : Z) (v : Value) (st : State) : State :=
  onWriter (fun rw =>
    Write (JSON v) (WriteHeader status (Header_Set "Content-Type" "application/json" rw))) st.

Definition errorJSON (status : Z) (msg : string) : State -> State :=
  writeJSON status (ErrorValue {| Error := msg |}).

(* ================================================================= *)
(** ** Pure helpers of [main.go] *)

Definition buildExpire (days hours minutes : Z) : string :=
  if ((days <? 0) || (hours <? 0) || (minutes <? 0))%Z then ""
  else if ((days =? 0) && (hours =? 0) && (minutes =? 0))%Z then ""
  else
    (* mc accepts composite durations like 2d3h15m *)
    let sb := "" in
    let sb := if (days >? 0)%Z then sb ++ (FormatInt days ++ "d") else sb in
    let sb := if (hours >? 0)%Z then sb ++ (FormatInt hours ++ "h") else sb in
    let sb := if (minutes >? 0)%Z then sb ++ (FormatInt minutes ++ "m") else sb in
    sb.

Definition clean (s : string) : string :=
  let s := TrimSpace s in
  let s := TrimPrefix s "/" in
  let s := TrimSuffix s "/" in
  s.

Definition joinObjectPath (folder key : string) : string :=
  let f := clean folder in
  let k := clean key in
  if f =? "" then k else f ++ "/" ++ k.

Fixpoint scanShare (lines : list string) : result :=
  match lines with
  | [] => Err "could not find Share: line in mc output"
  | line :: rest =>
      let line := TrimSpace line in
      if HasPrefix line "Share:" then
        let u := TrimSpace (TrimPrefix line "Share:") in
        if u =? "" then Err "Share line present but empty" else Ok u
      else scanShare rest
  end.

(** [extractShareURL] returns the presigned URL printed on the [Share:]
    line by [mc share download]. *)
Definition extractShareURL (out : string) : result :=
  scanShare (SplitLines out).

(* ----------------------------------------------------------------- *)
(** *** The pattern of the older variant

    The regular expression is [http], an optional [s], [://], then one or
    more characters that are neither white space ([\s]) nor a single or
    double quote. *)

(** The negated class of the pattern: every byte but tab, line feed, form
    feed, carriage return, space and the two quote characters. *)
Definition urlByte (a : ascii) : bool :=
  let x := code a in
  negb ((x =? 0x09) || (x =? 0x0A) || (x =? 0x0C) || (x =? 0x0D) || (x =? 0x20)
        || (x =? 0x22) || (x =? 0x27))%N.

Fixpoint takeRun (s : string) : string :=
  match s with
  | String a r => if urlByte a then String a (takeRun r) else EmptyString
  | EmptyString => EmptyString
  end.

(** The match of the pattern that starts at the head of [s], if any. *)
Definition matchHere (s : string) : option string :=
  let try (scheme : string) :=
    if HasPrefix s scheme then
      let run := takeRun (sliceFrom (String.length scheme) s) in
      if run =? "" then None else Some (scheme ++ run)
    else None in
  match try "https://" with
  | Some m => Some m
  | None => try "http://"
  end.

(** [re.FindString]: the leftmost match, [""] when there is none. *)
Fixpoint FindString (s : string) : string :=
  match matchHere s with
  | Some m => m
  | None =>
      match s with
      | String _ r => FindString r
      | EmptyString => EmptyString
      end
  end.

Definition extractFirstURL (s : string) : result :=
  (* Find first http/https URL (mc output usually contains exactly one) *)
  let m := FindString s in
  if m =? "" then Err "no URL found" else Ok m.

(* ================================================================= *)
(** ** The handlers *)

Section Handlers.

Context {P : Platform}.

Definition getenv (k def : string) : string :=
  let v := TrimSpace (os_Getenv k) in
  if v =? "" then def else v.

Definition healthHandler : Handler := fun _ st =>
  onWriter (fun rw => Write (Bytes "ok") (WriteHeader StatusOK rw)) st.

Definition withFields (parsed : URLt) (scheme host : string) : URLt :=
  {| Scheme := scheme;
     Opaque := Opaque parsed;
     User := User parsed;
     Host := host;
     UPath := UPath parsed;
     RawPath := RawPath parsed;
     OmitHost := OmitHost parsed;
     ForceQuery := ForceQuery parsed;
     RawQuery := RawQuery parsed;
     Fragment := Fragment parsed;
     RawFragment := RawFragment parsed |}.

Definition rewritePublicBase (u : string) : string :=
  let publicBase := TrimSpace (os_Getenv "PUBLIC_MINIO_BASE_URL") in
  if publicBase =? "" then u
  else
    match url_Parse u with
    | None => u
    | Some parsed =>
        match url_Parse publicBase with
        | None => u
        | Some pub =>
            (* Keep the path + query, swap only scheme/host. *)
            url_String (withFields parsed (Scheme pub) (Host pub))
        end
    end.

(** [presignHandler] of [main.go]. *)
Definition presignHandler : Handler := fun r st =>
  if negb (Method r =? "POST") then
    errorJSON StatusMethodNotAllowed "method not allowed" st
  else
    (* Read raw body once *)
    match ReqBody r with
    | None => errorJSON StatusBadRequest "unable to read request body" st
    | Some bodyStr =>
        match json_Decode bodyStr with
        | None => errorJSON StatusBadRequest "invalid JSON body" st
        | Some req =>
            let bucket := TrimSpace (Bucket req) in
            let folder := TrimSpace (Folder req) in
            let key := TrimSpace (Key req) in
            if bucket =? "" then errorJSON StatusBadRequest "bucket is required" st
            else if key =? "" then errorJSON StatusBadRequest "key is required" st
            else
              let alias := getenv "MINIO_ALIAS" "myminio" in
              (* Build object path: folder + key (folder optional) *)
              let objectPath := joinObjectPath folder key in
              let target := alias ++ "/" ++ bucket ++ "/" ++ objectPath in
              let expire := buildExpire (Days req) (Hours req) (Minutes req) in
              (* sensible default if caller sends 0,0,0 *)
              let expire := if expire =? "" then "15m" else expire in
              (* Run: mc share download --expire 10m myminio/bucket/path/to/file *)
              let argv := ["mc"; "share"; "download"; "--expire"; expire; target] in
              let res := exec_CombinedOutput 15 argv in
              let st := spawn argv st in
              let out := Out res in
              match CtxErr res with
              | DeadlineExceeded =>
                  errorJSON StatusGatewayTimeout "mc command timed out" st
              | _ =>
                  match CmdErr res with
                  | Some cmdErr =>
                      (* Return the mc error output (trimmed) *)
                      let msg := TrimSpace out in
                      let msg := if msg =? "" then cmdErr else msg in
                      errorJSON StatusBadRequest msg st
                  | None =>
                      (* Extract the URL from the Share: line *)
                      match extractShareURL out with
                      | Err _ =>
                          (* include mc output to make debugging easy *)
                          errorJSON StatusBadRequest
                            ("could not parse Share URL. mc output: " ++ TrimSpace out) st
                      | Ok urlStr =>
                          let urlStr := rewritePublicBase urlStr in
                          writeJSON StatusOK
                            (PresignValue {| URL := urlStr;
                                             Object := objectPath;
                                             RespBucket := bucket;
                                             ExpiresIn := expire |}) st
                      end
                  end
              end
        end
    end.

Definition withAuth (next : Handler) : Handler := fun r st =>
  (* Allow /health without auth *)
  if Path r =? "/health" then next r st
  else
    let token := TrimSpace (os_Getenv "API_TOKEN") in
    if token =? "" then
      (* If API_TOKEN not set, deny by default (safer) *)
      errorJSON StatusInternalServerError "API_TOKEN is not set on server" st
    else
      (* Support either:
         1) x-api-token: <token>
         2) Authorization: Bearer <token> *)
      let h1 := TrimSpace (HeaderGet r "x-api-token") in
      let h2 := TrimSpace (HeaderGet r "Authorization") in
      let ok := false in
      let ok := if negb (h1 =? "") && (h1 =? token) then true else ok in
      let ok :=
        if negb ok && HasPrefix (ToLower h2) "bearer " then
          if TrimSpace (sliceFrom 7 h2) =? token then true else ok
        else ok in
      if negb ok then errorJSON StatusUnauthorized "unauthorized" st
      else next r st.

End Handlers.

(* ----------------------------------------------------------------- *)
(** *** The older variant of the handler

    The second copy of the program differs from [main.go] in
    [presignHandler] only: it decodes the body without reading it first,
    waits 12 seconds instead of 15, takes the first URL of the output with
    [extractFirstURL], and does not rewrite it.  [withAuth], [buildExpire],
    [joinObjectPath], [getenv] and [writeJSON] are the same text. *)

Module Alt.
Section Handlers.

Context {P : Platform}.

Definition presignHandler : Handler := fun r st =>
  if negb (Method r =? "POST") then
    errorJSON StatusMethodNotAllowed "method not allowed" st
  else
    match match ReqBody r with Some bodyStr => json_Decode bodyStr | None => None end with
    | None => errorJSON StatusBadRequest "invalid JSON body" st
    | Some req =>
        let bucket := TrimSpace (Bucket req) in
        let folder := TrimSpace (Folder req) in
        let key := TrimSpace (Key req) in
        if bucket =? "" then errorJSON StatusBadRequest "bucket is required" st
        else if key =? "" then errorJSON StatusBadRequest "key is required" st
        else
          let alias := getenv "MINIO_ALIAS" "myminio" in
          let objectPath := joinObjectPath folder key in
          let target := alias ++ "/" ++ bucket ++ "/" ++ objectPath in
          let expire := buildExpire (Days req) (Hours req) (Minutes req) in
          let expire := if expire =? "" then "15m" else expire in
          let argv := ["mc"; "share"; "download"; "--expire"; expire; target] in
          let res := exec_CombinedOutput 12 argv in
          let st := spawn argv st in
          let out := Out res in
          match CtxErr res with
          | DeadlineExceeded =>
              errorJSON StatusGatewayTimeout "mc command timed out" st
          | _ =>
              match CmdErr res with
              | Some err =>
                  let msg := TrimSpace out in
                  let msg := if msg =? "" then err else msg in
                  errorJSON StatusBadRequest msg st
              | None =>
                  match extractFirstURL out with
                  | Err _ =>
                      errorJSON StatusInternalServerError
                        "could not extract URL from mc output" st
                  | Ok url =>
                      writeJSON StatusOK
                        (PresignValue {| URL := url;
                                         Object := objectPath;
                                         RespBucket := bucket;
                                         ExpiresIn := expire |}) st
                  end
              end
          end
    end.

End Handlers.
End Alt.

(* ================================================================= *)
(** ** A deterministic fake of the platform

    The examples below run the handlers against a fake: a fixed
    environment, a decoder that yields one given request, a subprocess with
    a canned result, and [refurl], a reading of [net/url] for plain URLs
    (scheme, host with optional numeric port, path, query, fragment, all
    made of characters that need no escaping).  [refurl] reports every
    other text as a parse failure; it stands for the library in examples
    only, and every general statement is about an arbitrary [Platform]. *)

Module refurl.

(** [strings.Cut(s, c)] for a one-byte separator. *)
Fixpoint cut (c : ascii) (s : string) : string * option string :=
  match s with
  | EmptyString => (EmptyString, None)
  | String a r =>
      if Ascii.eqb a c then (EmptyString, Some r)
      else let '(h, t) := cut c r in (String a h, t)
  end.

Definition isAlpha (a : ascii) : bool :=
  let x := code (lowerByte a) in ((0x61 <=? x) && (x <=? 0x7A))%N.

Definition isDigit (a : ascii) : bool :=
  let x := code a in ((0x30 <=? x) && (x <=? 0x39))%N.

Fixpoint all (p : ascii -> bool) (s : string) : bool :=
  match s with
  | EmptyString => true
  | String a r => p a && all p r
  end.

Definition isOneOf (set : string) (a : ascii) : bool :=
  negb (all (fun b => negb (Ascii.eqb a b)) set).

(** Characters that a host name keeps as they are. *)
Definition hostByte (a : ascii) : bool :=
  isAlpha a || isDigit a || isOneOf "-._~" a.

(** Characters that a path, a query and a fragment keep as they are. *)
Definition plain (a : ascii) : bool :=
  hostByte a || isOneOf "/=&" a.

(** A scheme: a letter, then letters, digits, plus, minus and dot. *)
Definition validScheme (s : string) : bool :=
  match s with
  | String c r => isAlpha c && all (fun a => isAlpha a || isDigit a || isOneOf "+-." a) r
  | EmptyString => false
  end.

(** A host name with an optional port made of digits. *)
Definition validHost (h : string) : bool :=
  let '(name, port) := cut ":" h in
  all hostByte name && match port with Some p => all isDigit p | None => true end.

Definition orEmpty (o : option string) : string :=
  match o with Some s => s | None => EmptyString end.

Definition Parse (rawURL : string) : option URLt :=
  (* Cut off #frag *)
  let '(u, frag) := cut "#" rawURL in
  (* Split off the leading scheme *)
  match cut ":" u with
  | (scheme, Some rest) =>
      let '(rest, query) := cut "?" rest in
      let '(authority, path) := cut "/" (sliceFrom 2 rest) in
      let path := match path with Some p => String "/" p | None => EmptyString end in
      if validScheme scheme && HasPrefix rest "//" && validHost authority
         && all plain path && all plain (orEmpty query) && all plain (orEmpty frag)
      then
        Some {| Scheme := ToLower scheme;
                Opaque := EmptyString;
                User := None;
                Host := authority;
                UPath := path;
                RawPath := EmptyString;
                OmitHost := false;
                ForceQuery := match query with Some EmptyString => true | _ => false end;
                RawQuery := orEmpty query;
                Fragment := orEmpty frag;
                RawFragment := EmptyString |}
      else None
  | (_, None) => None
  end.

(** [URL.String] for values whose components need no escaping and that
    carry no user information. *)
Definition String (u : URLt) : string :=
  let buf := if Scheme u =? "" then "" else Scheme u ++ ":" in
  let buf :=
    if negb (Opaque u =? "") then buf ++ Opaque u
    else
      let buf :=
        if negb (Scheme u =? "") || negb (Host u =? "") then
          if OmitHost u && (Host u =? "") then buf
          else
            let buf :=
              if negb (Host u =? "") || negb (UPath u =? "") then buf ++ "//" else buf in
            buf ++ Host u
        else buf in
      let path := UPath u in
      let buf :=
        if negb (path =? "") && negb (HasPrefix path "/") && negb (Host u =? "")
        then buf ++ "/" else buf in
      buf ++ path in
  let buf :=
    if ForceQuery u || negb (RawQuery u =? "") then buf ++ "?" ++ RawQuery u else buf in
  let buf :=
    if negb (Fragment u =? "") then buf ++ "#" ++ Fragment u else buf in
  buf.

End refurl.

(** The fake: environment [env], a decoder that yields [req] for every
    body, a subprocess that leaves [res] for every command. *)
Definition fakePlatform (env : string -> string) (req : PresignRequest)
    (res : CmdResult) : Platform :=
  {| os_Getenv := env;
     json_Decode := fun _ => Some req;
     exec_CombinedOutput := fun _ _ => res;
     url_Parse := refurl.Parse;
     url_String := refurl.String |}.

(** An environment that sets the shared secret only. *)
Definition envToken (k : string) : string :=
  if k =? "API_TOKEN" then "s3cret" else "".

(** An environment that sets no variable. *)
Definition envEmpty (k : string) : string := "".

(** An environment with a public base URL. *)
Definition envPublic (k : string) : string :=
  if k =? "PUBLIC_MINIO_BASE_URL" then "https://public.example" else envToken k.

Definition mkRequest (bucket folder key : string) (days hours minutes : Z) : PresignRequest :=
  {| Bucket := bucket; Folder := folder; Key := key;
     Days := days; Hours := hours; Minutes := minutes |}.

(** The tool exits with status zero after printing [out]. *)
Definition toolPrints (out : string) : CmdResult :=
  {| Out := out; CmdErr := None; CtxErr := CtxNil |}.

(** The tool exits with a non-zero status after printing [out]. *)
Definition toolFails (out : string) : CmdResult :=
  {| Out := out; CmdErr := Some "exit status 1"; CtxErr := CtxNil |}.

(** The tool is killed at the deadline. *)
Definition toolTimesOut : CmdResult :=
  {| Out := ""; CmdErr := Some "signal: killed"; CtxErr := DeadlineExceeded |}.

(** A POST to [/presign] with the given headers. *)
Definition post (headers : string -> string) : Request :=
  {| Method := "POST"; Path := "/presign"; HeaderGet := headers; ReqBody := Some "{}" |}.

Definition noHeaders (k : string) : string := "".

(** A request that carries the secret as a bearer token, the scheme in
    mixed case. *)
Definition bearerHeaders (k : string) : string :=
  if k =? "Authorization" then "BeArEr s3cret" else "".

(** A request that carries the secret in the custom header. *)
Definition tokenHeaders (k : string) : string :=
  if k =? "x-api-token" then "s3cret" else "".

Definition emptyWriter : ResponseWriter := {| Header := []; Code := None; Body := [] |}.

Definition start : State := {| w := emptyWriter; spawned := [] |}.

(** What [mc share download] prints on success. *)
Definition shareOutput : string :=
  JoinLines ["URL: http://internal:9000/b/f.pdf";
             "Expire: 10 minutes 0 seconds";
             "Share: https://s3.local/b/f.pdf?sig=z";
             ""].

Definition reqPdf : PresignRequest := mkRequest "b" "" "f.pdf" 0 0 10.

Definition reqNegative : PresignRequest := mkRequest "b" "" "f.pdf" (-1) 0 0.

Definition reqSlash : PresignRequest := mkRequest "b" "" " / " 0 0 10.

(** The [url.URL] of a plain URL: a scheme, a host, a path and a query,
    every other field at its zero value. *)
Definition plainURL (scheme host path query : string) : URLt :=
  {| Scheme := scheme; Opaque := ""; User := None; Host := host;
     UPath := path; RawPath := ""; OmitHost := false; ForceQuery := false;
     RawQuery := query; Fragment := ""; RawFragment := "" |}.

(** The spec's reading of one component of a duration: the magnitude in
    decimal followed by its unit, present only when the magnitude is not
    zero. *)
Definition component (n : Z) (unit : string) : string :=
  if (n =? 0)%Z then "" else FormatInt n ++ unit.

(** A line of the tool's output that does not begin, once trimmed, with
    the marker. *)
Definition noShare (line : string) : Prop :=
  HasPrefix (TrimSpace line) "Share:" = false.

(** A text made of separators only. *)
Fixpoint onlySeparators (s : string) : bool :=
  match s with
  | EmptyString => true
  | String c r => Ascii.eqb c "/" && onlySeparators r
  end.

(** The spec's reading of case-insensitive equality on ASCII text. *)
Definition equalFold (a b : string) : Prop := ToLower a = ToLower b.

(** Every byte of [s] satisfies [p]. *)
Fixpoint allBytes (p : ascii -> bool) (s : string) : bool :=
  match s with
  | EmptyString => true
  | String a r => p a && allBytes p r
  end.

(** A decimal digit. *)
Definition decimalDigit (a : ascii) : bool :=
  let x := code a in ((0x30 <=? x) && (x <=? 0x39))%N.

(** [m] occurs in [s] as a contiguous part. *)
Definition occursIn (m s : string) : Prop :=
  exists pre post, s = pre ++ m ++ post.

(** The tests of [trimRunes] on the first two and the first three bytes it
    reads. *)
Definition rune2 (fwd : bool) (a b : ascii) : bool :=
  if fwd then space2 a b else space2 b a.

Definition rune3 (fwd : bool) (a b c : ascii) : bool :=
  if fwd then space3 a b c else space3 c b a.

(** The bytes read first are the encoding of a white-space rune. *)
Definition leadingRune (fwd : bool) (s : string) : bool :=
  match s with
  | String a r =>
      asciiSpace a
      || match r with
         | String b r2 =>
             rune2 fwd a b
             || match r2 with
                | String c _ => rune3 fwd a b c
                | EmptyString => false
                end
         | EmptyString => false
         end
  | EmptyString => false
  end.

(** [s] begins with white space. *)
Definition leadingSpace (s : string) : bool := leadingRune true s.

(** [s] ends with white space. *)
Definition trailingSpace (s : string) : bool := leadingRune false (rev s).

(** [t] begins with what the pattern of the older variant matches: one of
    the two schemes and at least one byte of the class after it. *)
Definition startsURL (t : string) : Prop :=
  exists c rest,
    urlByte c = true
    /\ (t = "http://" ++ String c rest \/ t = "https://" ++ String c rest).

(** The header [writeJSON] sets. *)
Definition jsonContentType : string * string := ("Content-Type", "application/json").

(* ================================================================= *)
(** ** Notions the statements use *)

Section Notions.

Context {P : Platform}.

(** The request gets past the checks of [presignHandler]: it is a POST
    whose body decodes to [req], and the bucket and the key of [req] are
    not empty once trimmed. *)
Definition passesValidation (r : Request) (req : PresignRequest) : Prop :=
  Method r = "POST"
  /\ (exists body, ReqBody r = Some body /\ json_Decode body = Some req)
  /\ TrimSpace (Bucket req) <> ""
  /\ TrimSpace (Key req) <> "".

(** The object path, the expiration and the signing target the handler
    computes for [req], and the command it runs. *)
Definition objectPathOf (req : PresignRequest) : string :=
  joinObjectPath (TrimSpace (Folder req)) (TrimSpace (Key req)).

Definition expirationOf (req : PresignRequest) : string :=
  let expire := buildExpire (Days req) (Hours req) (Minutes req) in
  if expire =? "" then "15m" else expire.

Definition signingTarget (req : PresignRequest) : string :=
  getenv "MINIO_ALIAS" "myminio" ++ "/" ++ TrimSpace (Bucket req) ++ "/" ++ objectPathOf req.

Definition commandLine (req : PresignRequest) : list string :=
  ["mc"; "share"; "download"; "--expire"; expirationOf req; signingTarget req].

(** The credential the spec accepts: the trimmed [x-api-token] header is
    the secret, or the trimmed [Authorization] header is a scheme equal
    to [bearer ] up to case, followed by a token that is the secret once
    trimmed. *)
Definition presents (r : Request) (token : string) : Prop :=
  TrimSpace (HeaderGet r "x-api-token") = token
  \/ exists scheme rest,
       TrimSpace (HeaderGet r "Authorization") = scheme ++ rest
       /\ equalFold scheme "bearer "
       /\ TrimSpace rest = token.

End Notions.

(* ================================================================= *)
(** ** Facts about the string functions *)

Section StringFacts.

Lemma app_empty_r (s : string) : s ++ "" = s.
Proof. induction s as [|c s IH]; simpl; [reflexivity | now rewrite IH]. Qed.

Lemma app_assoc' (a b c : string) : (a ++ b) ++ c = a ++ (b ++ c).
Proof. induction a as [|x a IH]; simpl; [reflexivity | now rewrite IH]. Qed.

Lemma app_length (a b : string) :
  String.length (a ++ b) = String.length a + String.length b.
Proof. induction a as [|x a IH]; simpl; [reflexivity | now rewrite IH]. Qed.

Lemma rev_app (a b : string) : rev (a ++ b) = rev b ++ rev a.
Proof.
  induction a as [|x a IH]; simpl.
  - now rewrite app_empty_r.
  - now rewrite IH, app_assoc'.
Qed.

Lemma rev_involutive (s : string) : rev (rev s) = s.
Proof.
  induction s as [|c s IH]; simpl; [reflexivity |].
  now rewrite rev_app, IH.
Qed.

Lemma rev_inj (a b : string) : rev a = rev b -> a = b.
Proof. intros H. rewrite <- (rev_involutive a), H. apply rev_involutive. Qed.

Lemma rev_eq_empty (s : string) : rev s = "" <-> s = "".
Proof.
  split; intros H.
  - apply rev_inj. exact H.
  - now subst.
Qed.

Lemma rev_length (s : string) : String.length (rev s) = String.length s.
Proof.
  induction s as [|c s IH]; simpl; [reflexivity |].
  rewrite app_length, IH. simpl. lia.
Qed.

(** A string is a prefix of another exactly when the other is the prefix
    followed by some rest. *)
Lemma HasPrefix_iff (s p : string) :
  HasPrefix s p = true <-> exists r, s = p ++ r.
Proof.
  revert s; induction p as [|x p IH]; intros s; simpl.
  - split; [intros _; now exists s | reflexivity].
  - destruct s as [|c s].
    + split; [discriminate | intros [r H]; discriminate].
    + rewrite andb_true_iff, Ascii.eqb_eq, IH. split.
      * intros [-> [r ->]]. now exists r.
      * intros [r H]. injection H as -> ->. split; [reflexivity | now exists r].
Qed.

Lemma HasPrefix_app (p r : string) : HasPrefix (p ++ r) p = true.
Proof. apply HasPrefix_iff. now exists r. Qed.

Lemma sliceFrom_app (p r : string) : sliceFrom (String.length p) (p ++ r) = r.
Proof. induction p as [|x p IH]; simpl; [reflexivity | exact IH]. Qed.

Lemma TrimPrefix_app (p r : string) : TrimPrefix (p ++ r) p = r.
Proof. unfold TrimPrefix. now rewrite HasPrefix_app, sliceFrom_app. Qed.

Lemma TrimPrefix_none (s p : string) : HasPrefix s p = false -> TrimPrefix s p = s.
Proof. unfold TrimPrefix. now intros ->. Qed.

(** A string is a suffix of another exactly when the other is some rest
    followed by the suffix. *)
Lemma HasSuffix_iff (s x : string) :
  HasSuffix s x = true <-> exists r, s = r ++ x.
Proof.
  unfold HasSuffix. rewrite HasPrefix_iff. split.
  - intros [r H]. exists (rev r). apply rev_inj.
    now rewrite H, rev_app, rev_involutive.
  - intros [r ->]. exists (rev r). apply rev_app.
Qed.

Lemma HasSuffix_app (r x : string) : HasSuffix (r ++ x) x = true.
Proof. apply HasSuffix_iff. now exists r. Qed.

Lemma TrimSuffix_app (r x : string) : TrimSuffix (r ++ x) x = r.
Proof.
  unfold TrimSuffix. rewrite HasSuffix_app, rev_app.
  rewrite <- (rev_length x), sliceFrom_app. apply rev_involutive.
Qed.

Lemma TrimSuffix_none (s x : string) : HasSuffix s x = false -> TrimSuffix s x = s.
Proof. unfold TrimSuffix. now intros ->. Qed.

End StringFacts.

(* ================================================================= *)
(** ** What the handler does with a request that passes validation *)

Section HandlerFacts.

Context {P : Platform}.

(** Past validation, [presignHandler] runs the command and answers from
    what the command left behind. *)
Lemma presignHandler_run (r : Request) (req : PresignRequest) (st : State) :
  passesValidation r req ->
  presignHandler r st =
    let res := exec_CombinedOutput 15 (commandLine req) in
    let st' := spawn (commandLine req) st in
    match CtxErr res with
    | DeadlineExceeded => errorJSON StatusGatewayTimeout "mc command timed out" st'
    | _ =>
        match CmdErr res with
        | Some cmdErr =>
            errorJSON StatusBadRequest
              (if TrimSpace (Out res) =? "" then cmdErr else TrimSpace (Out res)) st'
        | None =>
            match extractShareURL (Out res) with
            | Err _ =>
                errorJSON StatusBadRequest
                  ("could not parse Share URL. mc output: " ++ TrimSpace (Out res)) st'
            | Ok urlStr =>
                writeJSON StatusOK
                  (PresignValue {| URL := rewritePublicBase urlStr;
                                   Object := objectPathOf req;
                                   RespBucket := TrimSpace (Bucket req);
                                   ExpiresIn := expirationOf req |}) st'
            end
        end
    end.
Proof.
  intros (Hm & (body & Hb & Hd) & Hbucket & Hkey).
  unfold presignHandler.
  rewrite Hm, Hb, Hd. simpl negb. cbv iota.
  apply String.eqb_neq in Hbucket, Hkey. rewrite Hbucket, Hkey.
  reflexivity.
Qed.

(** The same for the older variant, with its deadline, its extractor and
    its fixed parse-error message. *)
Lemma Alt_presignHandler_run (r : Request) (req : PresignRequest) (st : State) :
  passesValidation r req ->
  Alt.presignHandler r st =
    let res := exec_CombinedOutput 12 (commandLine req) in
    let st' := spawn (commandLine req) st in
    match CtxErr res with
    | DeadlineExceeded => errorJSON StatusGatewayTimeout "mc command timed out" st'
    | _ =>
        match CmdErr res with
        | Some err =>
            errorJSON StatusBadRequest
              (if TrimSpace (Out res) =? "" then err else TrimSpace (Out res)) st'
        | None =>
            match extractFirstURL (Out res) with
            | Err _ =>
                errorJSON StatusInternalServerError
                  "could not extract URL from mc output" st'
            | Ok url =>
                writeJSON StatusOK
                  (PresignValue {| URL := url;
                                   Object := objectPathOf req;
                                   RespBucket := TrimSpace (Bucket req);
                                   ExpiresIn := expirationOf req |}) st'
            end
        end
    end.
Proof.
  intros (Hm & (body & Hb & Hd) & Hbucket & Hkey).
  unfold Alt.presignHandler.
  rewrite Hm, Hb, Hd. simpl negb. cbv iota.
  apply String.eqb_neq in Hbucket, Hkey. rewrite Hbucket, Hkey.
  reflexivity.
Qed.

(** Past validation the handler spawns exactly one command. *)
Lemma presignHandler_spawned (r : Request) (req : PresignRequest) (st : State) :
  passesValidation r req ->
  spawned (presignHandler r st) = (spawned st ++ [commandLine req])%list.
Proof.
  intros H. rewrite (presignHandler_run r req st H). cbv zeta.
  destruct (CtxErr _); try reflexivity;
    destruct (CmdErr _); try reflexivity;
    destruct (extractShareURL _); reflexivity.
Qed.

End HandlerFacts.

(* ================================================================= *)
(** ** The expiration formatter *)

Section Expiration.

Context {P : Platform}.

Local Open Scope Z_scope.

Lemma gtb_zero (n : Z) : 0 <= n -> (n >? 0) = negb (n =? 0).
Proof.
  intros H. rewrite Z.gtb_ltb.
  destruct (Z.ltb_spec 0 n), (Z.eqb_spec n 0); simpl; lia || reflexivity.
Qed.

Lemma buildExpire_components (d h m : Z) :
  0 <= d -> 0 <= h -> 0 <= m -> ~ (d = 0 /\ h = 0 /\ m = 0) ->
  buildExpire d h m = (component d "d" ++ component h "h" ++ component m "m")%string.
Proof.
  intros Hd Hh Hm Hnz. unfold buildExpire, component.
  destruct (Z.ltb_spec d 0); [lia |].
  destruct (Z.ltb_spec h 0); [lia |].
  destruct (Z.ltb_spec m 0); [lia |].
  rewrite !gtb_zero by assumption. simpl orb. cbv iota.
  destruct (Z.eqb_spec d 0), (Z.eqb_spec h 0), (Z.eqb_spec m 0);
    simpl andb; simpl negb; cbv iota; try (exfalso; apply Hnz; now repeat split);
    cbn [append]; rewrite ?app_empty_r, ?app_assoc'; reflexivity.
Qed.

Lemma buildExpire_negative (d h m : Z) :
  d < 0 \/ h < 0 \/ m < 0 -> buildExpire d h m = ""%string.
Proof.
  intros H. unfold buildExpire.
  destruct (Z.ltb_spec d 0), (Z.ltb_spec h 0), (Z.ltb_spec m 0);
    simpl; try reflexivity; lia.
Qed.

Lemma expirationOf_default (req : PresignRequest) :
  buildExpire (Days req) (Hours req) (Minutes req) = ""%string ->
  expirationOf req = "15m"%string.
Proof. unfold expirationOf. now intros ->. Qed.

(** C5.  For days, hours and minutes that are not negative and not all
    zero, [buildExpire] is the concatenation, in that order and with
    nothing in between, of the days followed by [d], the hours followed
    by [h] and the minutes followed by [m], each present only when it is
    not zero.  (2,3,15) gives 2d3h15m and (0,3,0) gives 3h.  (0,0,0)
    gives the empty sentinel, and for such a request the handler runs the
    tool with the default 15m and reports 15m as the expiration. *)
Theorem buildExpire_format :
  (forall d h m : Z,
      0 <= d -> 0 <= h -> 0 <= m -> ~ (d = 0 /\ h = 0 /\ m = 0) ->
      buildExpire d h m
      = (component d "d" ++ component h "h" ++ component m "m")%string)
  /\ buildExpire 2 3 15 = "2d3h15m"%string
  /\ buildExpire 0 3 0 = "3h"%string
  /\ buildExpire 0 0 0 = ""%string
  /\ (forall (r : Request) (req : PresignRequest) (st : State),
        passesValidation r req ->
        Days req = 0 -> Hours req = 0 -> Minutes req = 0 ->
        expirationOf req = "15m"%string
        /\ spawned (presignHandler r st)
           = (spawned st
              ++ [["mc"; "share"; "download"; "--expire"; "15m"; signingTarget req]%string])%list).
Proof.
  split; [exact buildExpire_components |].
  split; [reflexivity |]. split; [reflexivity |]. split; [reflexivity |].
  intros r req st Hv Hd Hh Hm.
  assert (He : expirationOf req = "15m"%string).
  { unfold expirationOf. now rewrite Hd, Hh, Hm. }
  split; [exact He |].
  rewrite (presignHandler_spawned r req st Hv). unfold commandLine. now rewrite He.
Qed.

(** C3, as the code has it.  When a day, hour or minute count is negative
    [buildExpire] returns the same empty sentinel as for (0,0,0), and the
    handler treats the request as it treats one with no duration: it
    raises no validation error, runs the tool with the default 15m, and a
    successful answer reports 15m. *)
Theorem negative_duration_defaults (r : Request) (req : PresignRequest) (st : State) :
  passesValidation r req ->
  Days req < 0 \/ Hours req < 0 \/ Minutes req < 0 ->
  buildExpire (Days req) (Hours req) (Minutes req) = buildExpire 0 0 0
  /\ expirationOf req = "15m"%string
  /\ spawned (presignHandler r st)
     = (spawned st
        ++ [["mc"; "share"; "download"; "--expire"; "15m"; signingTarget req]%string])%list
  /\ (forall url,
        CtxErr (exec_CombinedOutput 15 (commandLine req)) <> DeadlineExceeded ->
        CmdErr (exec_CombinedOutput 15 (commandLine req)) = None ->
        extractShareURL (Out (exec_CombinedOutput 15 (commandLine req))) = Ok url ->
        presignHandler r st
        = writeJSON StatusOK
            (PresignValue {| URL := rewritePublicBase url;
                             Object := objectPathOf req;
                             RespBucket := TrimSpace (Bucket req);
                             ExpiresIn := "15m" |})
            (spawn (commandLine req) st)).
Proof.
  intros Hv Hneg.
  pose proof (buildExpire_negative _ _ _ Hneg) as Hs.
  pose proof (expirationOf_default req Hs) as He.
  repeat split.
  - exact Hs.
  - exact He.
  - rewrite (presignHandler_spawned r req st Hv). unfold commandLine. now rewrite He.
  - intros url Hctx Herr Hurl.
    rewrite (presignHandler_run r req st Hv). cbv zeta.
    rewrite Herr, Hurl, He.
    destruct (CtxErr _); [reflexivity | reflexivity | congruence].
Qed.

End Expiration.

(* ================================================================= *)
(** ** The auth gate *)

Section AuthGate.

Context {P : Platform}.

Lemma ToLower_app (a b : string) : ToLower (a ++ b) = ToLower a ++ ToLower b.
Proof. induction a as [|x a IH]; simpl; [reflexivity | now rewrite IH]. Qed.

Lemma ToLower_length (s : string) : String.length (ToLower s) = String.length s.
Proof. induction s as [|x s IH]; simpl; [reflexivity | now rewrite IH]. Qed.

(** A prefix of the lower-cased text is the lower-cased form of a prefix
    of the text. *)
Lemma HasPrefix_ToLower (s p : string) :
  HasPrefix (ToLower s) p = true <-> exists a b, s = a ++ b /\ ToLower a = p.
Proof.
  split.
  - revert s; induction p as [|x p IH]; intros s H.
    + now exists "", s.
    + destruct s as [|c s]; simpl in H; [discriminate |].
      apply andb_true_iff in H as [Hc Hp]. apply Ascii.eqb_eq in Hc.
      destruct (IH s Hp) as (a & b & -> & <-).
      exists (String c a), b. simpl. now rewrite Hc.
  - intros (a & b & -> & <-). rewrite ToLower_app. apply HasPrefix_app.
Qed.

(** The slice [h2[7:]] of [withAuth] is taken only where it is in range. *)
Lemma bearer_slice_in_range (h2 : string) :
  HasPrefix (ToLower h2) "bearer " = true -> 7 <= String.length h2.
Proof.
  intros H. apply HasPrefix_ToLower in H as (a & b & -> & Ha).
  rewrite app_length, <- (ToLower_length a), Ha. simpl. lia.
Qed.

(** The test the code makes on the [Authorization] header, in the words
    of the spec: a scheme that is [bearer ] up to case, then a token
    that is the secret once trimmed. *)
Lemma bearer_presented (h2 token : string) :
  HasPrefix (ToLower h2) "bearer " = true /\ TrimSpace (sliceFrom 7 h2) = token
  <-> exists scheme rest,
        h2 = scheme ++ rest /\ equalFold scheme "bearer " /\ TrimSpace rest = token.
Proof.
  split.
  - intros [H Ht]. apply HasPrefix_ToLower in H as (a & b & -> & Ha).
    exists a, b. repeat split; [exact Ha |].
    replace 7 with (String.length a) in Ht
      by (rewrite <- (ToLower_length a), Ha; reflexivity).
    now rewrite sliceFrom_app in Ht.
  - intros (a & b & -> & Ha & Ht). unfold equalFold in Ha. simpl in Ha. split.
    + apply HasPrefix_ToLower. now exists a, b.
    + replace 7 with (String.length a)
        by (rewrite <- (ToLower_length a), Ha; reflexivity).
      now rewrite sliceFrom_app.
Qed.

(** The decision of the gate as one boolean. *)
Lemma withAuth_decision (next : Handler) (r : Request) (st : State) :
  Path r <> "/health" ->
  TrimSpace (os_Getenv "API_TOKEN") <> "" ->
  withAuth next r st =
    let token := TrimSpace (os_Getenv "API_TOKEN") in
    let h1 := TrimSpace (HeaderGet r "x-api-token") in
    let h2 := TrimSpace (HeaderGet r "Authorization") in
    if (h1 =? token)
       || HasPrefix (ToLower h2) "bearer " && (TrimSpace (sliceFrom 7 h2) =? token)
    then next r st
    else errorJSON StatusUnauthorized "unauthorized" st.
Proof.
  intros Hp Ht. unfold withAuth.
  apply String.eqb_neq in Hp. rewrite Hp.
  pose proof Ht as Ht'. apply String.eqb_neq in Ht'. rewrite Ht'. cbv zeta.
  destruct (String.eqb_spec (TrimSpace (HeaderGet r "x-api-token"))
              (TrimSpace (os_Getenv "API_TOKEN"))) as [E | E].
  - rewrite E, Ht'. reflexivity.
  - rewrite andb_false_r. cbn [andb orb negb].
    destruct (HasPrefix _ "bearer "); cbn [andb orb negb]; [| reflexivity].
    destruct (TrimSpace (sliceFrom 7 _) =? _); reflexivity.
Qed.

Lemma decision_presents (r : Request) (token : string) :
  (TrimSpace (HeaderGet r "x-api-token") =? token)
  || HasPrefix (ToLower (TrimSpace (HeaderGet r "Authorization"))) "bearer "
     && (TrimSpace (sliceFrom 7 (TrimSpace (HeaderGet r "Authorization"))) =? token)
  = true
  <-> presents r token.
Proof.
  unfold presents.
  rewrite orb_true_iff, andb_true_iff, !String.eqb_eq, bearer_presented.
  reflexivity.
Qed.

(** C1.  On a path other than [/health], when the configured secret is
    empty once trimmed, the gate answers 500 with the misconfiguration
    message whatever the request's headers are, and the answer does not
    depend on the handler behind the gate: that handler is not run. *)
Theorem empty_secret_denies (next : Handler) (r : Request) (st : State) :
  Path r <> "/health" ->
  TrimSpace (os_Getenv "API_TOKEN") = "" ->
  withAuth next r st
  = errorJSON StatusInternalServerError "API_TOKEN is not set on server" st
  /\ spawned (withAuth next r st) = spawned st
  /\ (Code (w st) = None -> Code (w (withAuth next r st)) = Some 500%Z).
Proof.
  intros Hp Ht.
  assert (E : withAuth next r st
              = errorJSON StatusInternalServerError "API_TOKEN is not set on server" st).
  { unfold withAuth. apply String.eqb_neq in Hp. now rewrite Hp, Ht. }
  rewrite E. repeat split.
  intros Hc. simpl. unfold WriteHeader. simpl. now rewrite Hc.
Qed.


End AuthGate.

(* ================================================================= *)
(** ** The object path builder *)

Section ObjectPath.

Lemma HasPrefix_slash_app (a b : string) :
  a <> "" -> HasPrefix (a ++ b) "/" = HasPrefix a "/".
Proof. destruct a; [congruence | reflexivity]. Qed.

Lemma HasSuffix_slash_app (a b : string) :
  b <> "" -> HasSuffix (a ++ b) "/" = HasSuffix b "/".
Proof.
  intros Hb. unfold HasSuffix. rewrite rev_app. apply HasPrefix_slash_app.
  now rewrite rev_eq_empty.
Qed.

Lemma not_HasPrefix (s p r : string) : HasPrefix s p = false -> s <> p ++ r.
Proof. intros H E. subst. now rewrite HasPrefix_app in H. Qed.

Lemma not_HasSuffix (s x r : string) : HasSuffix s x = false -> s <> r ++ x.
Proof. intros H E. subst. now rewrite HasSuffix_app in H. Qed.

Lemma bool_false (b : bool) : (b = true -> False) -> b = false.
Proof. destruct b; [intros H; now destruct H | reflexivity]. Qed.

(** Taking one separator off each end of a text that has no doubled
    separator at either end leaves no separator at either end; what is
    left is empty only for the empty text and the lone separator. *)
Lemma strip_one (t : string) :
  HasPrefix t "//" = false -> HasSuffix t "//" = false ->
  HasPrefix (TrimSuffix (TrimPrefix t "/") "/") "/" = false
  /\ HasSuffix (TrimSuffix (TrimPrefix t "/") "/") "/" = false
  /\ (TrimSuffix (TrimPrefix t "/") "/" = "" -> t = "" \/ t = "/").
Proof.
  intros Hpp Hss.
  (* the text once its leading separator is gone *)
  assert (Hu : exists u,
             TrimPrefix t "/" = u /\ HasPrefix u "/" = false
             /\ HasSuffix u "//" = false /\ (u = "" -> t = "" \/ t = "/")).
  { destruct (HasPrefix t "/") eqn:E.
    - apply HasPrefix_iff in E as [r ->]. exists r. rewrite TrimPrefix_app.
      repeat split.
      + exact Hpp.
      + apply bool_false. intros H. apply HasSuffix_iff in H as [q ->].
        apply (not_HasSuffix _ _ ("/" ++ q) Hss). reflexivity.
      + intros ->. now right.
    - exists t. rewrite (TrimPrefix_none _ _ E). repeat split; auto. }
  destruct Hu as (u & -> & Hup & Hus & Hue).
  destruct (HasSuffix u "/") eqn:E.
  - apply HasSuffix_iff in E as [q ->]. rewrite TrimSuffix_app. repeat split.
    + apply bool_false. intros H. apply HasPrefix_iff in H as [q' ->].
      simpl in Hup. discriminate.
    + apply bool_false. intros H. apply HasSuffix_iff in H as [q' ->].
      apply (not_HasSuffix _ _ q' Hus). now rewrite app_assoc'.
    + intros ->. simpl in Hup. discriminate.
  - rewrite (TrimSuffix_none _ _ E). repeat split; auto.
Qed.

Lemma clean_ends (s : string) :
  HasPrefix (TrimSpace s) "//" = false -> HasSuffix (TrimSpace s) "//" = false ->
  HasPrefix (clean s) "/" = false
  /\ HasSuffix (clean s) "/" = false
  /\ (clean s = "" -> TrimSpace s = "" \/ TrimSpace s = "/").
Proof. intros H1 H2. unfold clean. now apply strip_one. Qed.

(** C4, as the code has it.  [joinObjectPath] takes one separator, not
    every separator, off each end of the trimmed folder and of the
    trimmed key.  When the trimmed key is neither empty nor a lone
    separator and neither trimmed segment has a doubled separator at
    either end, the object path has no leading and no trailing separator;
    it is the cleaned key alone when the cleaned folder is empty, and
    otherwise the cleaned folder, one separator, and the cleaned key,
    where the cleaned folder does not end and the cleaned key does not
    begin with a separator. *)
Theorem joinObjectPath_separators (folder key : string) :
  TrimSpace key <> "" -> TrimSpace key <> "/" ->
  HasPrefix (TrimSpace folder) "//" = false ->
  HasSuffix (TrimSpace folder) "//" = false ->
  HasPrefix (TrimSpace key) "//" = false ->
  HasSuffix (TrimSpace key) "//" = false ->
  HasPrefix (joinObjectPath folder key) "/" = false
  /\ HasSuffix (joinObjectPath folder key) "/" = false
  /\ (clean folder = "" -> joinObjectPath folder key = clean key)
  /\ (clean folder <> "" ->
      joinObjectPath folder key = clean folder ++ "/" ++ clean key
      /\ HasSuffix (clean folder) "/" = false
      /\ HasPrefix (clean key) "/" = false).
Proof.
  intros Hk0 Hk1 Hfp Hfs Hkp Hks.
  destruct (clean_ends folder Hfp Hfs) as (Fp & Fs & _).
  destruct (clean_ends key Hkp Hks) as (Kp & Ks & Ke).
  assert (Kn : clean key <> "") by (intros E; destruct (Ke E); contradiction).
  unfold joinObjectPath.
  destruct (String.eqb_spec (clean folder) "") as [E | E].
  - split; [exact Kp |]. split; [exact Ks |]. split; [reflexivity |].
    intros E'. contradiction.
  - assert (Hs : HasSuffix (clean folder ++ "/" ++ clean key) "/" = false).
    { change (clean folder ++ "/" ++ clean key)
        with (clean folder ++ String "/" (clean key)).
      rewrite HasSuffix_slash_app by discriminate.
      change (String "/" (clean key)) with ("/" ++ clean key).
      rewrite (HasSuffix_slash_app "/" (clean key) Kn). exact Ks. }
    split; [now rewrite HasPrefix_slash_app |].
    split; [exact Hs |].
    split; [intros E'; contradiction |].
    intros _. now repeat split.
Qed.

End ObjectPath.

(* ================================================================= *)
(** ** The line-anchored output parser *)

Section ShareLine.

Lemma SplitLines_nonempty (s : string) : SplitLines s <> [].
Proof.
  induction s as [|c s IH]; simpl; [discriminate |].
  destruct (Ascii.eqb c newline); [discriminate |].
  destruct (SplitLines s); [contradiction | discriminate].
Qed.

(** Splitting loses nothing: the lines joined by line feeds are the text. *)
Lemma JoinLines_SplitLines (s : string) : JoinLines (SplitLines s) = s.
Proof.
  induction s as [|c s IH]; [reflexivity |].
  simpl SplitLines. destruct (Ascii.eqb_spec c newline) as [-> | Hc].
  - pose proof (SplitLines_nonempty s) as Hn.
    destruct (SplitLines s) as [|l ls]; [contradiction |].
    change (JoinLines ("" :: l :: ls)) with (String newline (JoinLines (l :: ls))).
    now rewrite IH.
  - pose proof (SplitLines_nonempty s) as Hn.
    destruct (SplitLines s) as [|l ls]; [contradiction |].
    destruct ls as [|l' ls].
    + simpl in *. now rewrite IH.
    + change (JoinLines (String c l :: l' :: ls))
        with (String c (l ++ String newline (JoinLines (l' :: ls)))).
      change (JoinLines (l :: l' :: ls))
        with (l ++ String newline (JoinLines (l' :: ls))) in IH.
      now rewrite IH.
Qed.

Lemma scanShare_skip (pre rest : list string) :
  Forall noShare pre -> scanShare (pre ++ rest) = scanShare rest.
Proof.
  induction 1 as [|l pre Hl _ IH]; [reflexivity |].
  cbn [List.app scanShare]. unfold noShare in Hl. now rewrite Hl.
Qed.

Lemma scanShare_hit (line rem : string) (post : list string) :
  TrimSpace line = "Share:" ++ rem ->
  scanShare (line :: post)
  = if TrimSpace rem =? "" then Err "Share line present but empty"
    else Ok (TrimSpace rem).
Proof.
  intros H. cbn [scanShare]. rewrite H, HasPrefix_app, TrimPrefix_app. reflexivity.
Qed.

Lemma scanShare_none (lines : list string) :
  Forall noShare lines ->
  scanShare lines = Err "could not find Share: line in mc output".
Proof.
  intros H. rewrite <- (List.app_nil_r lines). now rewrite scanShare_skip.
Qed.

(** Either no line carries the marker, or there is a first one that does. *)
Lemma first_share_line (lines : list string) :
  Forall noShare lines
  \/ exists pre line post rem,
       lines = (pre ++ line :: post)%list
       /\ Forall noShare pre
       /\ TrimSpace line = "Share:" ++ rem.
Proof.
  induction lines as [|l lines IH]; [left; constructor |].
  destruct (HasPrefix (TrimSpace l) "Share:") eqn:E.
  - right. apply HasPrefix_iff in E as [rem E].
    exists [], l, lines, rem. repeat split; [constructor | exact E].
  - destruct IH as [IH | (pre & line & post & rem & -> & Hpre & Hline)].
    + left. constructor; assumption.
    + right. exists (l :: pre), line, post, rem.
      repeat split; [constructor; assumption | exact Hline].
Qed.


End ShareLine.

(* ================================================================= *)
(** ** The URL rewriter *)

Section Rewrite.

Context {P : Platform}.

(** C7.  With no public base configured [rewritePublicBase] returns the
    URL as it is, and so it does when the URL or the base does not parse.
    When both parse, the result is the printed form of the parsed URL
    with the scheme and the host of the base and every other component
    (path, query, fragment, and the rest) as parsed.  Where [net/url]
    reads [http://internal:9000/bucket/key?X=1] and
    [https://public.example] into their components and prints them back,
    the rewrite of the first with the second as base is
    [https://public.example/bucket/key?X=1]. *)
Theorem rewritePublicBase_scheme_host (u : string) :
  (TrimSpace (os_Getenv "PUBLIC_MINIO_BASE_URL") = "" -> rewritePublicBase u = u)
  /\ (url_Parse u = None -> rewritePublicBase u = u)
  /\ (url_Parse (TrimSpace (os_Getenv "PUBLIC_MINIO_BASE_URL")) = None ->
      rewritePublicBase u = u)
  /\ (forall parsed pub,
        TrimSpace (os_Getenv "PUBLIC_MINIO_BASE_URL") <> "" ->
        url_Parse u = Some parsed ->
        url_Parse (TrimSpace (os_Getenv "PUBLIC_MINIO_BASE_URL")) = Some pub ->
        exists rewritten,
          rewritePublicBase u = url_String rewritten
          /\ Scheme rewritten = Scheme pub
          /\ Host rewritten = Host pub
          /\ UPath rewritten = UPath parsed
          /\ RawPath rewritten = RawPath parsed
          /\ RawQuery rewritten = RawQuery parsed
          /\ ForceQuery rewritten = ForceQuery parsed
          /\ Fragment rewritten = Fragment parsed
          /\ RawFragment rewritten = RawFragment parsed
          /\ Opaque rewritten = Opaque parsed
          /\ User rewritten = User parsed
          /\ OmitHost rewritten = OmitHost parsed)
  /\ (os_Getenv "PUBLIC_MINIO_BASE_URL" = "https://public.example" ->
      url_Parse "http://internal:9000/bucket/key?X=1"
      = Some (plainURL "http" "internal:9000" "/bucket/key" "X=1") ->
      url_Parse "https://public.example"
      = Some (plainURL "https" "public.example" "" "") ->
      url_String (plainURL "https" "public.example" "/bucket/key" "X=1")
      = "https://public.example/bucket/key?X=1" ->
      rewritePublicBase "http://internal:9000/bucket/key?X=1"
      = "https://public.example/bucket/key?X=1").
Proof.
  unfold rewritePublicBase. repeat split.
  - intros ->. reflexivity.
  - intros ->. now destruct (_ =? _).
  - intros ->. destruct (_ =? _); [reflexivity |]. now destruct (url_Parse u).
  - intros parsed pub Hb Hu Hp. apply String.eqb_neq in Hb.
    rewrite Hb, Hu, Hp.
    exists (withFields parsed (Scheme pub) (Host pub)). now repeat split.
  - intros Henv Hi Hp Hstr.
    rewrite Henv.
    change (TrimSpace "https://public.example") with "https://public.example".
    cbn [String.eqb Ascii.eqb Bool.eqb]. rewrite Hi, Hp. exact Hstr.
Qed.

End Rewrite.

(* ================================================================= *)
(** ** Outcomes of the external tool *)

Section ToolOutcome.

Context {P : Platform}.



End ToolOutcome.

(* ================================================================= *)
(** ** A key made of separators *)

Section SeparatorKey.

Context {P : Platform}.

Lemma HasSuffix_slash_end (s : string) : HasSuffix (s ++ "/") "/" = true.
Proof. apply HasSuffix_app. Qed.

(** C10, as the code has it.  A POST whose body decodes to a request
    with a bucket that is not empty, a folder that cleans to nothing and a
    key that is one or two separators once trimmed passes validation; its
    object path is the empty string, the signing target handed to the
    tool ends with a separator, and a successful answer carries the empty
    string in its object field. *)
Theorem separator_key_empty_path (r : Request) (req : PresignRequest) (st : State)
    (body : string) :
  Method r = "POST" ->
  ReqBody r = Some body ->
  json_Decode body = Some req ->
  TrimSpace (Bucket req) <> "" ->
  clean (TrimSpace (Folder req)) = "" ->
  TrimSpace (Key req) = "/" \/ TrimSpace (Key req) = "//" ->
  passesValidation r req
  /\ objectPathOf req = ""
  /\ HasSuffix (signingTarget req) "/" = true
  /\ spawned (presignHandler r st)
     = (spawned st
        ++ [["mc"; "share"; "download"; "--expire"; expirationOf req;
             (getenv "MINIO_ALIAS" "myminio" ++ "/" ++ TrimSpace (Bucket req) ++ "/")%string]])%list
  /\ (forall url,
        CtxErr (exec_CombinedOutput 15 (commandLine req)) <> DeadlineExceeded ->
        CmdErr (exec_CombinedOutput 15 (commandLine req)) = None ->
        extractShareURL (Out (exec_CombinedOutput 15 (commandLine req))) = Ok url ->
        presignHandler r st
        = writeJSON StatusOK
            (PresignValue {| URL := rewritePublicBase url;
                             Object := "";
                             RespBucket := TrimSpace (Bucket req);
                             ExpiresIn := expirationOf req |})
            (spawn (commandLine req) st)).
Proof.
  intros Hm Hb Hd Hbucket Hfolder Hkey.
  assert (Hv : passesValidation r req).
  { repeat split; try assumption.
    - now exists body.
    - destruct Hkey as [-> | ->]; discriminate. }
  assert (Ho : objectPathOf req = "").
  { unfold objectPathOf, joinObjectPath. rewrite Hfolder.
    destruct Hkey as [-> | ->]; reflexivity. }
  assert (Ht : signingTarget req
               = getenv "MINIO_ALIAS" "myminio" ++ "/" ++ TrimSpace (Bucket req) ++ "/").
  { unfold signingTarget. now rewrite Ho. }
  split; [exact Hv |]. split; [exact Ho |]. split; [| split].
  - rewrite Ht, <- !app_assoc'. apply HasSuffix_slash_end.
  - rewrite (presignHandler_spawned r req st Hv). unfold commandLine. now rewrite Ht.
  - intros url Hc He Hx.
    rewrite (presignHandler_run r req st Hv). cbv zeta. rewrite He, Hx, Ho.
    destruct (CtxErr _); congruence.
Qed.

End SeparatorKey.

(* ================================================================= *)
(** ** The statements at concrete inputs, run against the fake *)

Section Examples.

Local Open Scope Z_scope.

Lemma fake_passes (env : string -> string) (req : PresignRequest) (res : CmdResult)
    (headers : string -> string) :
  TrimSpace (Bucket req) <> ""%string -> TrimSpace (Key req) <> ""%string ->
  @passesValidation (fakePlatform env req res) (post headers) req.
Proof.
  intros Hb Hk. split; [reflexivity |]. split; [| split; assumption].
  exists "{}"%string. split; reflexivity.
Defined.

(** C1 at a request that carries a bearer token, on a server with no
    secret: the answer is 500 and the handler behind the gate is not run. *)
Lemma empty_secret_denies_witness :
  @withAuth (fakePlatform envEmpty reqPdf (toolPrints shareOutput))
    healthHandler (post bearerHeaders) start
  = errorJSON StatusInternalServerError "API_TOKEN is not set on server" start.
Proof.
  refine (proj1 (@empty_secret_denies
                   (fakePlatform envEmpty reqPdf (toolPrints shareOutput))
                   healthHandler (post bearerHeaders) start _ _)).
  - discriminate.
  - reflexivity.
Defined.


(** C3 at (-1,0,0): the expiration is the default. *)
Lemma negative_duration_defaults_witness :
  @expirationOf reqNegative = "15m"%string.
Proof.
  refine (proj1 (proj2 (@negative_duration_defaults
                          (fakePlatform envToken reqNegative (toolPrints shareOutput))
                          (post noHeaders) reqNegative start _ _))).
  - apply fake_passes; discriminate.
  - left. reflexivity.
Defined.

(** C3 as the spec words it fails: a request with days = -1 is answered
    200 with the default 15m, the sentinel of (-1,0,0) is the sentinel of
    (0,0,0), and so not every such request is answered with an error. *)
Lemma negative_duration_not_rejected :
  @presignHandler (fakePlatform envToken reqNegative (toolPrints shareOutput))
    (post noHeaders) start
  = writeJSON StatusOK
      (PresignValue {| URL := "https://s3.local/b/f.pdf?sig=z";
                       Object := "f.pdf";
                       RespBucket := "b";
                       ExpiresIn := "15m" |})
      (spawn ["mc"; "share"; "download"; "--expire"; "15m"; "myminio/b/f.pdf"]%string
         start)
  /\ buildExpire (-1) 0 0 = buildExpire 0 0 0
  /\ ~ (forall (P : Platform) (r : Request) (req : PresignRequest) (st : State),
          passesValidation r req ->
          Days req < 0 \/ Hours req < 0 \/ Minutes req < 0 ->
          exists msg, presignHandler r st = errorJSON StatusBadRequest msg st).
Proof.
  split; [reflexivity |]. split; [reflexivity |].
  intros H.
  destruct (H (fakePlatform envToken reqNegative (toolPrints shareOutput))
              (post noHeaders) reqNegative start) as [msg E].
  - apply fake_passes; discriminate.
  - left. reflexivity.
  - apply (f_equal spawned) in E. discriminate E.
Qed.

(** C4 at a folder and a key with one separator at their ends. *)
Lemma joinObjectPath_separators_witness :
  HasPrefix (joinObjectPath " /invoices/Jan/ " "/file.pdf") "/" = false
  /\ HasSuffix (joinObjectPath " /invoices/Jan/ " "/file.pdf") "/" = false
  /\ (clean " /invoices/Jan/ " = ""%string ->
      joinObjectPath " /invoices/Jan/ " "/file.pdf" = clean "/file.pdf")
  /\ (clean " /invoices/Jan/ " <> ""%string ->
      joinObjectPath " /invoices/Jan/ " "/file.pdf"
      = (clean " /invoices/Jan/ " ++ "/" ++ clean "/file.pdf")%string
      /\ HasSuffix (clean " /invoices/Jan/ ") "/" = false
      /\ HasPrefix (clean "/file.pdf") "/" = false).
Proof.
  refine (joinObjectPath_separators " /invoices/Jan/ " "/file.pdf" _ _ _ _ _ _);
    first [discriminate | reflexivity].
Defined.

(** C4 as the spec words it fails: only one separator is taken off each
    end, so a key that begins with two keeps one, and a key that is a
    lone separator leaves the folder's separator at the end. *)
Lemma joinObjectPath_keeps_separators :
  joinObjectPath "" "//a" = "/a"%string
  /\ joinObjectPath "a" "/" = "a/"%string
  /\ joinObjectPath "a//" "//b" = "a///b"%string
  /\ ~ (forall folder key : string,
          TrimSpace key <> ""%string ->
          HasPrefix (joinObjectPath folder key) "/" = false
          /\ HasSuffix (joinObjectPath folder key) "/" = false).
Proof.
  repeat split; try reflexivity.
  intros H. destruct (H ""%string "//a"%string) as [E _]; [discriminate |].
  discriminate E.
Qed.

(** C5 at one day and thirty minutes. *)
Lemma buildExpire_format_witness :
  buildExpire 1 0 30 = "1d30m"%string.
Proof.
  refine (proj1 (@buildExpire_format
                   (fakePlatform envToken reqPdf (toolPrints shareOutput)))
            1 0 30 _ _ _ _).
  - discriminate.
  - discriminate.
  - discriminate.
  - intros (H & _). discriminate H.
Defined.


(** C7 at the URL and the base of the spec. *)
Lemma rewritePublicBase_scheme_host_witness :
  @rewritePublicBase (fakePlatform envPublic reqPdf (toolPrints shareOutput))
    "http://internal:9000/bucket/key?X=1"
  = "https://public.example/bucket/key?X=1"%string.
Proof.
  refine (proj2 (proj2 (proj2 (proj2
            (@rewritePublicBase_scheme_host
               (fakePlatform envPublic reqPdf (toolPrints shareOutput))
               "http://internal:9000/bucket/key?X=1")))) _ _ _ _);
    reflexivity.
Defined.




(** C10 at a key that is one separator between spaces. *)
Lemma separator_key_empty_path_witness :
  @objectPathOf reqSlash = ""%string.
Proof.
  refine (proj1 (proj2 (@separator_key_empty_path
                          (fakePlatform envToken reqSlash (toolPrints shareOutput))
                          (post noHeaders) reqSlash start "{}"%string _ _ _ _ _ _))).
  - reflexivity.
  - reflexivity.
  - reflexivity.
  - discriminate.
  - reflexivity.
  - left. reflexivity.
Defined.

(** C10 as the spec words it fails: a key of three separators is made of
    separators only, and its object path is a separator, not the empty
    string. *)
Lemma separator_key_three :
  onlySeparators (TrimSpace "///") = true
  /\ joinObjectPath "" "///" = "/"%string
  /\ ~ (forall key : string,
          TrimSpace key <> ""%string ->
          onlySeparators (TrimSpace key) = true ->
          joinObjectPath "" key = ""%string).
Proof.
  split; [reflexivity |]. split; [reflexivity |].
  intros H. specialize (H "///"%string). discriminate H; [discriminate | reflexivity].
Qed.

(** The service end to end, gate and handler: a request for [f.pdf] in
    bucket [b] for ten minutes, the tool printing its share line. *)
Example end_to_end_success :
  @withAuth (fakePlatform envToken reqPdf (toolPrints shareOutput))
    (@presignHandler (fakePlatform envToken reqPdf (toolPrints shareOutput)))
    (post tokenHeaders) start
  = {| w := {| Header := [("Content-Type", "application/json")%string];
               Code := Some 200;
               Body := [JSON (PresignValue {| URL := "https://s3.local/b/f.pdf?sig=z";
                                              Object := "f.pdf";
                                              RespBucket := "b";
                                              ExpiresIn := "10m" |})] |};
       spawned := [["mc"; "share"; "download"; "--expire"; "10m"; "myminio/b/f.pdf"]%string] |}.
Proof. reflexivity. Qed.

(** The same request when the tool exceeds the deadline. *)
Example end_to_end_timeout :
  w (@withAuth (fakePlatform envToken reqPdf toolTimesOut)
       (@presignHandler (fakePlatform envToken reqPdf toolTimesOut))
       (post tokenHeaders) start)
  = {| Header := [("Content-Type", "application/json")%string];
       Code := Some 504;
       Body := [JSON (ErrorValue {| Error := "mc command timed out" |})] |}.
Proof. reflexivity. Qed.

(** The same request without a credential. *)
Example end_to_end_unauthorized :
  @withAuth (fakePlatform envToken reqPdf (toolPrints shareOutput))
    (@presignHandler (fakePlatform envToken reqPdf (toolPrints shareOutput)))
    (post noHeaders) start
  = {| w := {| Header := [("Content-Type", "application/json")%string];
               Code := Some 401;
               Body := [JSON (ErrorValue {| Error := "unauthorized" |})] |};
       spawned := [] |}.
Proof. reflexivity. Qed.

(** A failing tool: its trimmed output is the error of the answer. *)
Example tool_error_is_surfaced :
  w (@presignHandler
       (fakePlatform envToken reqPdf
          (toolFails (JoinLines ["mc: <ERROR> Unable to share."; ""]%string)))
       (post noHeaders) start)
  = {| Header := [("Content-Type", "application/json")%string];
       Code := Some 400;
       Body := [JSON (ErrorValue {| Error := "mc: <ERROR> Unable to share." |})] |}.
Proof. reflexivity. Qed.

End Examples.

(* ================================================================= *)
(** ** Every request: one answer, at most one command *)

Section Responses.

Context {P : Platform}.

Local Open Scope Z_scope.

(** Why a request does not pass validation, in the order of the checks. *)
Lemma rejected_cases (r : Request) :
  ~ (exists req, passesValidation r req) ->
  Method r <> "POST"%string
  \/ (Method r = "POST"%string /\ ReqBody r = None)
  \/ (Method r = "POST"%string
      /\ exists body, ReqBody r = Some body /\ json_Decode body = None)
  \/ (Method r = "POST"%string
      /\ exists body req, ReqBody r = Some body /\ json_Decode body = Some req
                          /\ TrimSpace (Bucket req) = ""%string)
  \/ (Method r = "POST"%string
      /\ exists body req, ReqBody r = Some body /\ json_Decode body = Some req
                          /\ TrimSpace (Bucket req) <> ""%string
                          /\ TrimSpace (Key req) = ""%string).
Proof.
  intros Hn.
  destruct (String.eqb_spec (Method r) "POST") as [Hm | Hm]; [| now left].
  right. destruct (ReqBody r) as [body |] eqn:Hb; [| now left].
  right. destruct (json_Decode body) as [req |] eqn:Hd; [| left; split; [exact Hm | now exists body]].
  right. destruct (String.eqb_spec (TrimSpace (Bucket req)) "") as [Hbu | Hbu].
  - left. split; [exact Hm |]. now exists body, req.
  - right. split; [exact Hm |]. exists body, req. repeat split; try assumption.
    destruct (String.eqb_spec (TrimSpace (Key req)) "") as [Hk | Hk]; [exact Hk |].
    exfalso. apply Hn. exists req. repeat split; try assumption. now exists body.
Qed.

(** What both variants answer to a request that does not pass validation:
    an error of status 405 or 400, with no command run. *)
Lemma rejected_answer (r : Request) (st : State) :
  ~ (exists req, passesValidation r req) ->
  exists status msg alt,
    presignHandler r st = errorJSON status msg st
    /\ Alt.presignHandler r st = errorJSON status alt st
    /\ (status = 405 \/ status = 400)
    /\ (ReqBody r <> None -> alt = msg).
Proof.
  intros Hn. unfold presignHandler, Alt.presignHandler.
  destruct (rejected_cases r Hn)
    as [Hm | [(Hm & Hb) | [(Hm & body & Hb & Hd)
       | [(Hm & body & req & Hb & Hd & Hbu) | (Hm & body & req & Hb & Hd & Hbu & Hk)]]]].
  - apply String.eqb_neq in Hm. rewrite Hm.
    exists 405, "method not allowed"%string, "method not allowed"%string.
    repeat split; auto.
  - rewrite Hm, Hb.
    exists 400, "unable to read request body"%string, "invalid JSON body"%string.
    repeat split; auto. intros H. now elim H.
  - rewrite Hm, Hb, Hd.
    exists 400, "invalid JSON body"%string, "invalid JSON body"%string.
    repeat split; auto.
  - rewrite Hm, Hb, Hd, Hbu.
    exists 400, "bucket is required"%string, "bucket is required"%string.
    repeat split; auto.
  - apply String.eqb_neq in Hbu. rewrite Hm, Hb, Hd. cbn [negb String.eqb]. cbv zeta.
    rewrite Hbu, Hk.
    exists 400, "key is required"%string, "key is required"%string.
    repeat split; auto.
Qed.

Lemma Alt_presignHandler_spawned (r : Request) (req : PresignRequest) (st : State) :
  passesValidation r req ->
  spawned (Alt.presignHandler r st) = (spawned st ++ [commandLine req])%list.
Proof.
  intros H. rewrite (Alt_presignHandler_run r req st H). cbv zeta.
  destruct (CtxErr _); try reflexivity;
    destruct (CmdErr _); try reflexivity;
    destruct (extractFirstURL _); reflexivity.
Qed.

Lemma validation_unique (r : Request) (req req' : PresignRequest) :
  passesValidation r req -> passesValidation r req' -> req = req'.
Proof.
  intros (_ & (b & Hb & Hd) & _) (_ & (b' & Hb' & Hd') & _).
  rewrite Hb in Hb'. injection Hb' as <-. rewrite Hd in Hd'. now injection Hd'.
Qed.

(** X1.  Both variants of the handler run the tool exactly for the requests
    that pass validation, and then exactly once, with the command line of
    the request: a request that is not a POST, whose body cannot be read
    or decoded, or whose bucket or key is blank, starts no process. *)
Theorem command_iff_validation (r : Request) (st : State) :
  (forall req,
      passesValidation r req ->
      spawned (presignHandler r st) = (spawned st ++ [commandLine req])%list
      /\ spawned (Alt.presignHandler r st) = (spawned st ++ [commandLine req])%list)
  /\ (~ (exists req, passesValidation r req) ->
      spawned (presignHandler r st) = spawned st
      /\ spawned (Alt.presignHandler r st) = spawned st)
  /\ (spawned (presignHandler r st) <> spawned st <-> exists req, passesValidation r req).
Proof.
  assert (Hno : ~ (exists req, passesValidation r req) ->
                spawned (presignHandler r st) = spawned st
                /\ spawned (Alt.presignHandler r st) = spawned st).
  { intros Hn. destruct (rejected_answer r st Hn) as (status & msg & alt & E1 & E2 & _).
    now rewrite E1, E2. }
  split; [| split; [exact Hno |]].
  - intros req Hv. split.
    + now apply presignHandler_spawned.
    + now apply Alt_presignHandler_spawned.
  - split.
    + intros Hne.
      destruct (String.eqb_spec (Method r) "POST") as [Hm | Hm].
      2:{ exfalso. apply Hne, Hno. intros (req & Hm' & _). contradiction. }
      destruct (ReqBody r) as [body |] eqn:Hb.
      2:{ exfalso. apply Hne, Hno. intros (req & _ & (b & Hb' & _) & _). congruence. }
      destruct (json_Decode body) as [req |] eqn:Hd.
      2:{ exfalso. apply Hne, Hno. intros (req & _ & (b & Hb' & Hd') & _). congruence. }
      destruct (String.eqb_spec (TrimSpace (Bucket req)) "") as [Hbu | Hbu].
      { exfalso. apply Hne, Hno. intros (req' & _ & (b & Hb' & Hd') & Hbu' & _).
        assert (req' = req) by congruence. subst. contradiction. }
      destruct (String.eqb_spec (TrimSpace (Key req)) "") as [Hk | Hk].
      { exfalso. apply Hne, Hno. intros (req' & _ & (b & Hb' & Hd') & _ & Hk').
        assert (req' = req) by congruence. subst. contradiction. }
      exists req. repeat split; try assumption. now exists body.
    + intros (req & Hv) E. rewrite (presignHandler_spawned r req st Hv) in E.
      apply (f_equal (@List.length _)) in E. rewrite List.length_app in E.
      simpl in E. lia.
Qed.

End Responses.

(* ================================================================= *)
(** ** The sentinel of the expiration formatter *)

Section Sentinel.

Local Open Scope Z_scope.

Lemma app_nonempty_r (s t : string) (c : ascii) : (s ++ String c t)%string <> ""%string.
Proof. destruct s; discriminate. Qed.

Lemma component_empty (n : Z) (c : ascii) :
  component n (String c "") = ""%string -> n = 0.
Proof.
  unfold component. destruct (Z.eqb_spec n 0); [auto |].
  intros H. now apply app_nonempty_r in H.
Qed.

(** For an input with no negative component and not all zero, the text is
    not empty. *)
Lemma buildExpire_nonempty (d h m : Z) :
  0 <= d -> 0 <= h -> 0 <= m -> ~ (d = 0 /\ h = 0 /\ m = 0) ->
  buildExpire d h m <> ""%string.
Proof.
  intros Hd Hh Hm Hnz E. rewrite buildExpire_components in E by assumption.
  repeat
    match goal with
    | E : (?a ++ ?b)%string = ""%string |- _ =>
        let Ha := fresh in let Hb := fresh in
        assert (Ha : a = ""%string) by (destruct a; [reflexivity | discriminate E]);
        assert (Hb : b = ""%string) by (rewrite Ha in E; exact E);
        clear E
    end.
  repeat
    match goal with
    | E : component ?n _ = ""%string |- _ => apply component_empty in E
    end.
  apply Hnz. now repeat split.
Qed.

(** X2.  [buildExpire] returns the empty sentinel exactly when a component
    is negative or all three are zero; every other input gives a text that
    is not empty, so the default of the handler replaces nothing else. *)
Theorem buildExpire_empty_iff (d h m : Z) :
  buildExpire d h m = ""%string
  <-> (d < 0 \/ h < 0 \/ m < 0) \/ (d = 0 /\ h = 0 /\ m = 0).
Proof.
  split.
  - intros E.
    destruct (Z.ltb_spec d 0); [now left; left |].
    destruct (Z.ltb_spec h 0); [now left; right; left |].
    destruct (Z.ltb_spec m 0); [now left; right; right |].
    right.
    destruct (Z.eq_dec d 0) as [Hd | Hd]; destruct (Z.eq_dec h 0) as [Hh | Hh];
      destruct (Z.eq_dec m 0) as [Hm | Hm]; try (now repeat split); exfalso;
      (apply (buildExpire_nonempty d h m); try assumption; intros (? & ? & ?); contradiction).
  - intros [Hneg | (-> & -> & ->)]; [now apply buildExpire_negative | reflexivity].
Qed.

End Sentinel.

(* ================================================================= *)
(** ** The shape of every answer *)

Section Answers.

Context {P : Platform}.

Local Open Scope Z_scope.

Lemma validation_dec (r : Request) :
  (exists req, passesValidation r req) \/ ~ (exists req, passesValidation r req).
Proof.
  destruct (String.eqb_spec (Method r) "POST") as [Hm | Hm].
  2:{ right. intros (req & Hm' & _). contradiction. }
  destruct (ReqBody r) as [body |] eqn:Hb.
  2:{ right. intros (req & _ & (b & Hb' & _) & _). congruence. }
  destruct (json_Decode body) as [req |] eqn:Hd.
  2:{ right. intros (req & _ & (b & Hb' & Hd') & _). congruence. }
  destruct (String.eqb_spec (TrimSpace (Bucket req)) "") as [Hbu | Hbu].
  { right. intros (req' & _ & (b & Hb' & Hd') & Hbu' & _).
    assert (req' = req) by congruence. subst. contradiction. }
  destruct (String.eqb_spec (TrimSpace (Key req)) "") as [Hk | Hk].
  { right. intros (req' & _ & (b & Hb' & Hd') & _ & Hk').
    assert (req' = req) by congruence. subst. contradiction. }
  left. exists req. repeat split; try assumption. now exists body.
Qed.

(** What [writeJSON] does to the response writer, whatever else the state
    holds. *)
Lemma writeJSON_effect (status : Z) (v : Value) (st : State) :
  Body (w (writeJSON status v st)) = (Body (w st) ++ [JSON v])%list
  /\ In jsonContentType (Header (w (writeJSON status v st)))
  /\ (Code (w st) = None -> Code (w (writeJSON status v st)) = Some status).
Proof.
  unfold writeJSON, onWriter, Write, WriteHeader, Header_Set. cbn [w Code Body Header].
  destruct (Code (w st)) eqn:E; cbn [Code Body Header]; repeat split;
    try (now left); try discriminate; reflexivity.
Qed.

Lemma errorJSON_effect (status : Z) (msg : string) (st : State) :
  Body (w (errorJSON status msg st))
  = (Body (w st) ++ [JSON (ErrorValue {| Error := msg |})])%list
  /\ In jsonContentType (Header (w (errorJSON status msg st)))
  /\ (Code (w st) = None -> Code (w (errorJSON status msg st)) = Some status).
Proof. apply writeJSON_effect. Qed.

Lemma expirationOf_nonempty (req : PresignRequest) : expirationOf req <> ""%string.
Proof.
  unfold expirationOf.
  destruct (String.eqb_spec (buildExpire (Days req) (Hours req) (Minutes req)) "");
    [discriminate | assumption].
Qed.

(** X3.  Whatever the request, each variant of [presignHandler] writes
    exactly one JSON value to the body, sets the JSON content type, and on
    a writer with no status yet sets one status: 200, 400, 405 or 504 in
    [main.go], and also 500 in the older variant.  The status is 200
    exactly when the value written is a presign response. *)
Theorem one_json_answer (r : Request) (st : State) :
  (exists status v,
      Body (w (presignHandler r st)) = (Body (w st) ++ [JSON v])%list
      /\ In jsonContentType (Header (w (presignHandler r st)))
      /\ (Code (w st) = None -> Code (w (presignHandler r st)) = Some status)
      /\ In status [200; 400; 405; 504]
      /\ (status = 200 <-> exists p, v = PresignValue p))
  /\ (exists status v,
        Body (w (Alt.presignHandler r st)) = (Body (w st) ++ [JSON v])%list
        /\ In jsonContentType (Header (w (Alt.presignHandler r st)))
        /\ (Code (w st) = None -> Code (w (Alt.presignHandler r st)) = Some status)
        /\ In status [200; 400; 405; 500; 504]
        /\ (status = 200 <-> exists p, v = PresignValue p)).
Proof.
  assert (Herr : forall status msg st0 h,
             w st0 = w st -> h = errorJSON status msg st0 -> status <> 200 ->
             forall l, In status l ->
             exists status v,
               Body (w h) = (Body (w st) ++ [JSON v])%list
               /\ In jsonContentType (Header (w h))
               /\ (Code (w st) = None -> Code (w h) = Some status)
               /\ In status l
               /\ (status = 200 <-> exists p, v = PresignValue p)).
  { intros status msg st0 h Hw -> Hs l Hl.
    destruct (errorJSON_effect status msg st0) as (B & H & C). rewrite Hw in B, C.
    exists status, (ErrorValue {| Error := msg |}). repeat split; auto.
    - intros E. contradiction.
    - intros (p & E). discriminate E. }
  assert (Hok : forall p st0 h,
             w st0 = w st -> h = writeJSON StatusOK (PresignValue p) st0 ->
             forall l, In 200 l ->
             exists status v,
               Body (w h) = (Body (w st) ++ [JSON v])%list
               /\ In jsonContentType (Header (w h))
               /\ (Code (w st) = None -> Code (w h) = Some status)
               /\ In status l
               /\ (status = 200 <-> exists p, v = PresignValue p)).
  { intros p st0 h Hw -> l Hl.
    destruct (writeJSON_effect StatusOK (PresignValue p) st0) as (B & H & C).
    rewrite Hw in B, C.
    exists 200, (PresignValue p). repeat split; auto. now exists p. }
  destruct (validation_dec r) as [(req & Hv) | Hn].
  - split.
    + pose proof (presignHandler_run r req st Hv) as E. cbv zeta in E.
      destruct (CtxErr _); [| | eapply Herr; [| exact E | |]; simpl; auto; discriminate];
        (destruct (CmdErr _);
         [eapply Herr; [| exact E | |]; simpl; auto; discriminate |];
         destruct (extractShareURL _);
         [eapply Hok; [| exact E |]; simpl; auto
         | eapply Herr; [| exact E | |]; simpl; auto; discriminate]).
    + pose proof (Alt_presignHandler_run r req st Hv) as E. cbv zeta in E.
      destruct (CtxErr _);
        [| | eapply Herr; [| exact E | |]; simpl; auto 6; discriminate];
        (destruct (CmdErr _);
         [eapply Herr; [| exact E | |]; simpl; auto; discriminate |];
         destruct (extractFirstURL _);
         [eapply Hok; [| exact E |]; simpl; auto
         | eapply Herr; [| exact E | |]; simpl; auto; discriminate]).
  - destruct (rejected_answer r st Hn) as (status & msg & alt & E1 & E2 & Hs & _).
    split.
    + eapply Herr; [reflexivity | exact E1 | |];
        destruct Hs as [-> | ->]; simpl; auto; discriminate.
    + eapply Herr; [reflexivity | exact E2 | |];
        destruct Hs as [-> | ->]; simpl; auto; discriminate.
Qed.

End Answers.

(* ================================================================= *)
(** ** What a successful answer says about the command that was run *)

Section Consistency.

Context {P : Platform}.

Local Open Scope Z_scope.

Lemma body_tail_inj (b : list Chunk) (u v : Value) :
  (b ++ [JSON u])%list = (b ++ [JSON v])%list -> u = v.
Proof. intros H. apply List.app_inv_head in H. now injection H. Qed.

Lemma error_is_not_presign (status : Z) (msg : string) (st0 st : State)
    (p : PresignResponse) :
  w st0 = w st ->
  Body (w (errorJSON status msg st0)) = (Body (w st) ++ [JSON (PresignValue p)])%list ->
  False.
Proof.
  intros Hw H. destruct (errorJSON_effect status msg st0) as (B & _).
  rewrite B, Hw in H. apply body_tail_inj in H. discriminate H.
Qed.

Lemma presign_is_presign (v p : PresignResponse) (st0 st : State) :
  w st0 = w st ->
  Body (w (writeJSON StatusOK (PresignValue v) st0))
  = (Body (w st) ++ [JSON (PresignValue p)])%list ->
  v = p.
Proof.
  intros Hw H. destruct (writeJSON_effect StatusOK (PresignValue v) st0) as (B & _).
  rewrite B, Hw in H. apply body_tail_inj in H. now injection H.
Qed.

Ltac not_presign H :=
  exfalso; eapply error_is_not_presign; [| exact H]; reflexivity.

(** X4.  When a variant of [presignHandler] writes a presign response, the
    command it ran is the one the response describes: the expiration of
    the response is the argument given to [--expire], and the target is
    the alias, the bucket of the response and the object of the response,
    joined by separators.  The bucket and the expiration reported are never
    empty. *)
Theorem answer_reports_command (r : Request) (st : State) (p : PresignResponse) :
  (Body (w (presignHandler r st)) = (Body (w st) ++ [JSON (PresignValue p)])%list ->
   spawned (presignHandler r st)
   = (spawned st
      ++ [["mc"; "share"; "download"; "--expire"; ExpiresIn p;
           (getenv "MINIO_ALIAS" "myminio" ++ "/" ++ RespBucket p ++ "/" ++ Object p)%string]])%list
   /\ RespBucket p <> ""%string /\ ExpiresIn p <> ""%string)
  /\ (Body (w (Alt.presignHandler r st)) = (Body (w st) ++ [JSON (PresignValue p)])%list ->
      spawned (Alt.presignHandler r st)
      = (spawned st
         ++ [["mc"; "share"; "download"; "--expire"; ExpiresIn p;
              (getenv "MINIO_ALIAS" "myminio" ++ "/" ++ RespBucket p ++ "/" ++ Object p)%string]])%list
      /\ RespBucket p <> ""%string /\ ExpiresIn p <> ""%string).
Proof.
  destruct (validation_dec r) as [(req & Hv) | Hn].
  - pose proof Hv as (_ & _ & Hbu & _).
    split; intros H.
    + rewrite (presignHandler_spawned r req st Hv).
      rewrite (presignHandler_run r req st Hv) in H. cbv zeta in H.
      destruct (CtxErr _); [| | not_presign H];
        (destruct (CmdErr _); [not_presign H |];
         destruct (extractShareURL _); [| not_presign H];
         apply (presign_is_presign _ _ (spawn (commandLine req) st) st eq_refl) in H; subst p;
         cbn [ExpiresIn RespBucket Object];
         split; [reflexivity | split; [exact Hbu | apply expirationOf_nonempty]]).
    + rewrite (Alt_presignHandler_spawned r req st Hv).
      rewrite (Alt_presignHandler_run r req st Hv) in H. cbv zeta in H.
      destruct (CtxErr _); [| | not_presign H];
        (destruct (CmdErr _); [not_presign H |];
         destruct (extractFirstURL _); [| not_presign H];
         apply (presign_is_presign _ _ (spawn (commandLine req) st) st eq_refl) in H; subst p;
         cbn [ExpiresIn RespBucket Object];
         split; [reflexivity | split; [exact Hbu | apply expirationOf_nonempty]]).
  - destruct (rejected_answer r st Hn) as (status & msg & alt & E1 & E2 & _).
    split; intros H.
    + rewrite E1 in H. not_presign H.
    + rewrite E2 in H. not_presign H.
Qed.

(** X5.  The two variants of [presignHandler] give the same answer and run
    the same command whenever the body of the request can be read, the tool
    behaves the same under both deadlines, and the run does not end in
    success: they differ only in the message for an unreadable body and in
    what they do with the output of a successful run. *)
Theorem variants_agree (r : Request) (st : State) :
  ReqBody r <> None ->
  (forall req,
      passesValidation r req ->
      exec_CombinedOutput 12 (commandLine req) = exec_CombinedOutput 15 (commandLine req)
      /\ (CtxErr (exec_CombinedOutput 15 (commandLine req)) = DeadlineExceeded
          \/ CmdErr (exec_CombinedOutput 15 (commandLine req)) <> None)) ->
  Alt.presignHandler r st = presignHandler r st.
Proof.
  intros Hb Hx.
  destruct (validation_dec r) as [(req & Hv) | Hn].
  - destruct (Hx req Hv) as (E & Hfail).
    rewrite (presignHandler_run r req st Hv), (Alt_presignHandler_run r req st Hv).
    cbv zeta. rewrite E.
    destruct (CtxErr _) eqn:Hc; try reflexivity;
      (destruct (CmdErr _) eqn:He; [reflexivity |];
       destruct Hfail as [Hf | Hf]; [discriminate Hf | now elim Hf]).
  - destruct (rejected_answer r st Hn) as (status & msg & alt & E1 & E2 & _ & Halt).
    rewrite E1, E2, (Halt Hb). reflexivity.
Qed.

End Consistency.

(* ================================================================= *)
(** ** Trimming white space *)

Section Trimming.

(** Induction along the recursion of [trimRunes]. *)
Lemma trimRunes_cases (fwd : bool) (Q : string -> Prop) :
  (forall s, leadingRune fwd s = false -> trimRunes fwd s = s -> Q s) ->
  (forall a r,
      asciiSpace a = true ->
      trimRunes fwd (String a r) = trimRunes fwd r -> Q r -> Q (String a r)) ->
  (forall a b r,
      asciiSpace a = false -> rune2 fwd a b = true ->
      trimRunes fwd (String a (String b r)) = trimRunes fwd r ->
      Q r -> Q (String a (String b r))) ->
  (forall a b c r,
      asciiSpace a = false -> rune2 fwd a b = false -> rune3 fwd a b c = true ->
      trimRunes fwd (String a (String b (String c r))) = trimRunes fwd r ->
      Q r -> Q (String a (String b (String c r)))) ->
  forall s, Q s.
Proof.
  intros H0 H1 H2 H3 s.
  remember (String.length s) as n eqn:Hn.
  revert s Hn. induction n as [n IH] using lt_wf_ind. intros s Hn.
  destruct s as [|a r].
  { apply H0; reflexivity. }
  destruct (asciiSpace a) eqn:Ea.
  { apply H1; [exact Ea | cbn [trimRunes]; now rewrite Ea |].
    apply (IH (String.length r)); [subst n; simpl; lia | reflexivity]. }
  destruct r as [|b r2].
  { apply H0; [cbn; now rewrite Ea | cbn [trimRunes]; now rewrite Ea]. }
  destruct (rune2 fwd a b) eqn:E2.
  { apply H2; [exact Ea | exact E2 | |].
    - cbn [trimRunes]. rewrite Ea. unfold rune2 in E2. now rewrite E2.
    - apply (IH (String.length r2)); [subst n; simpl; lia | reflexivity]. }
  destruct r2 as [|c r3].
  { apply H0.
    - cbn. rewrite Ea, E2. reflexivity.
    - cbn [trimRunes]. rewrite Ea. unfold rune2 in E2. now rewrite E2. }
  destruct (rune3 fwd a b c) eqn:E3.
  { apply H3; [exact Ea | exact E2 | exact E3 | |].
    - cbn [trimRunes]. rewrite Ea. unfold rune2 in E2. rewrite E2.
      unfold rune3 in E3. now rewrite E3.
    - apply (IH (String.length r3)); [subst n; simpl; lia | reflexivity]. }
  apply H0.
  - cbn. rewrite Ea, E2, E3. reflexivity.
  - cbn [trimRunes]. rewrite Ea. unfold rune2 in E2. rewrite E2.
    unfold rune3 in E3. now rewrite E3.
Qed.

(** What [trimRunes] returns is the end of its argument. *)
Lemma trimRunes_suffix (fwd : bool) (s : string) :
  exists h, s = h ++ trimRunes fwd s.
Proof.
  pattern s. apply (trimRunes_cases fwd); clear s.
  - intros s _ E. exists "". now rewrite E.
  - intros a r _ E [h Hh]. exists (String a h). rewrite E. simpl. now rewrite <- Hh.
  - intros a b r _ _ E [h Hh]. exists (String a (String b h)). rewrite E. simpl.
    now rewrite <- Hh.
  - intros a b c r _ _ _ E [h Hh]. exists (String a (String b (String c h))).
    rewrite E. simpl. now rewrite <- Hh.
Qed.

(** What [trimRunes] returns begins with no white-space rune. *)
Lemma trimRunes_clean (fwd : bool) (s : string) :
  leadingRune fwd (trimRunes fwd s) = false.
Proof.
  pattern s. apply (trimRunes_cases fwd); clear s.
  - intros s H E. now rewrite E.
  - intros a r _ E H. now rewrite E.
  - intros a b r _ _ E H. now rewrite E.
  - intros a b c r _ _ _ E H. now rewrite E.
Qed.

(** A text that begins with no white-space rune is left as it is. *)
Lemma trimRunes_fixed (fwd : bool) (s : string) :
  leadingRune fwd s = false -> trimRunes fwd s = s.
Proof.
  intros H. destruct s as [|a [|b [|c r]]]; cbn in H |- *;
    repeat match type of H with
           | (_ || _)%bool = false => apply orb_false_iff in H; destruct H as [? H]
           end;
    unfold rune2, rune3 in *;
    repeat match goal with
           | E : _ = false |- _ => rewrite E; clear E
           end;
    try reflexivity.
Qed.

(** A beginning of a text that begins with no white-space rune begins with
    none either. *)
Lemma leadingRune_prefix (fwd : bool) (a b : string) :
  leadingRune fwd (a ++ b) = false -> leadingRune fwd a = false.
Proof.
  intros H. destruct a as [|x [|y [|z r]]]; cbn in H |- *; try reflexivity;
    repeat match type of H with
           | (_ || _)%bool = false => apply orb_false_iff in H; destruct H as [? H]
           end;
    repeat match goal with
           | E : _ = false |- _ => rewrite E; clear E
           end;
    reflexivity.
Qed.

End Trimming.

Section TrimSpaceFacts.

Lemma TrimRightSpace_prefix (s : string) : exists t, s = TrimRightSpace s ++ t.
Proof.
  unfold TrimRightSpace. destruct (trimRunes_suffix false (rev s)) as [h Hh].
  exists (rev h). apply rev_inj. now rewrite rev_app, !rev_involutive.
Qed.

Lemma TrimRightSpace_clean (s : string) : trailingSpace (TrimRightSpace s) = false.
Proof.
  unfold trailingSpace, TrimRightSpace. rewrite rev_involutive. apply trimRunes_clean.
Qed.

Lemma TrimRightSpace_fixed (s : string) : trailingSpace s = false -> TrimRightSpace s = s.
Proof.
  unfold trailingSpace, TrimRightSpace. intros H.
  rewrite (trimRunes_fixed false _ H). apply rev_involutive.
Qed.

(** The trimmed text has white space at neither end. *)
Lemma TrimSpace_clean (s : string) :
  leadingSpace (TrimSpace s) = false /\ trailingSpace (TrimSpace s) = false.
Proof.
  unfold TrimSpace. split; [| apply TrimRightSpace_clean].
  destruct (TrimRightSpace_prefix (TrimLeftSpace s)) as [t Ht].
  apply (leadingRune_prefix true _ t). rewrite <- Ht. apply trimRunes_clean.
Qed.

(** A text with white space at neither end is left as it is. *)
Lemma TrimSpace_fixed (s : string) :
  leadingSpace s = false -> trailingSpace s = false -> TrimSpace s = s.
Proof.
  intros Hl Hr. unfold TrimSpace, TrimLeftSpace.
  rewrite (trimRunes_fixed true s Hl). now apply TrimRightSpace_fixed.
Qed.

Lemma TrimSpace_idempotent (s : string) : TrimSpace (TrimSpace s) = TrimSpace s.
Proof. destruct (TrimSpace_clean s). now apply TrimSpace_fixed. Qed.

(** The trimmed text is a part of the text. *)
Lemma TrimSpace_occurs (s : string) : occursIn (TrimSpace s) s.
Proof.
  unfold TrimSpace.
  destruct (trimRunes_suffix true s) as [h Hh].
  destruct (TrimRightSpace_prefix (TrimLeftSpace s)) as [t Ht].
  exists h, t. unfold TrimLeftSpace in *. now rewrite <- Ht.
Qed.

Lemma occursIn_trans (a b c : string) : occursIn a b -> occursIn b c -> occursIn a c.
Proof.
  intros (p1 & q1 & ->) (p2 & q2 & ->). exists (p2 ++ p1), (q1 ++ q2).
  now rewrite !app_assoc'.
Qed.

Lemma occursIn_refl (a : string) : occursIn a a.
Proof. exists "", "". simpl. now rewrite app_empty_r. Qed.

Lemma TrimPrefix_occurs (s p : string) : occursIn (TrimPrefix s p) s.
Proof.
  destruct (HasPrefix s p) eqn:E.
  - apply HasPrefix_iff in E as [r ->]. rewrite TrimPrefix_app.
    exists p, "". now rewrite app_empty_r.
  - rewrite (TrimPrefix_none _ _ E). apply occursIn_refl.
Qed.

Lemma TrimSuffix_occurs (s x : string) : occursIn (TrimSuffix s x) s.
Proof.
  destruct (HasSuffix s x) eqn:E.
  - apply HasSuffix_iff in E as [r ->]. rewrite TrimSuffix_app. now exists "", x.
  - rewrite (TrimSuffix_none _ _ E). apply occursIn_refl.
Qed.

Lemma occursIn_length (a b : string) :
  occursIn a b -> String.length a <= String.length b.
Proof. intros (p & q & ->). rewrite !app_length. lia. Qed.

End TrimSpaceFacts.

(* ================================================================= *)
(** ** More on the object path *)

Section ObjectPathMore.

Context {P : Platform}.

Lemma clean_fixed (s : string) :
  leadingSpace s = false -> trailingSpace s = false ->
  HasPrefix s "/" = false -> HasSuffix s "/" = false ->
  clean s = s.
Proof.
  intros Hl Hr Hp Hs. unfold clean.
  rewrite (TrimSpace_fixed s Hl Hr), (TrimPrefix_none _ _ Hp).
  now apply TrimSuffix_none.
Qed.

Lemma clean_occurs (s : string) : occursIn (clean s) s.
Proof.
  unfold clean.
  eapply occursIn_trans; [apply TrimSuffix_occurs |].
  eapply occursIn_trans; [apply TrimPrefix_occurs |].
  apply TrimSpace_occurs.
Qed.

Lemma clean_TrimSpace (s : string) : clean (TrimSpace s) = clean s.
Proof. unfold clean. now rewrite TrimSpace_idempotent. Qed.

(** X6.  A folder and a key that have neither white space nor a separator
    at either end are joined as they are: the key alone when the folder is
    empty, and otherwise the folder, one separator and the key.  Separators
    inside a segment are kept. *)
Theorem joinObjectPath_verbatim (folder key : string) :
  leadingSpace folder = false -> trailingSpace folder = false ->
  HasPrefix folder "/" = false -> HasSuffix folder "/" = false ->
  leadingSpace key = false -> trailingSpace key = false ->
  HasPrefix key "/" = false -> HasSuffix key "/" = false ->
  (folder = "" -> joinObjectPath folder key = key)
  /\ (folder <> "" -> joinObjectPath folder key = folder ++ "/" ++ key).
Proof.
  intros F1 F2 F3 F4 K1 K2 K3 K4. unfold joinObjectPath.
  rewrite (clean_fixed folder F1 F2 F3 F4), (clean_fixed key K1 K2 K3 K4).
  split; intros H.
  - now rewrite H.
  - apply String.eqb_neq in H. now rewrite H.
Qed.

(** X7.  [joinObjectPath] adds nothing but the one separator: the object
    path is the cleaned key, or the cleaned folder, a separator and the
    cleaned key, where each cleaned segment is a contiguous part of the
    segment given; so the path is never longer than the folder, a
    separator and the key. *)
Theorem joinObjectPath_parts (folder key : string) :
  occursIn (clean folder) folder
  /\ occursIn (clean key) key
  /\ (joinObjectPath folder key = clean key
      \/ joinObjectPath folder key = clean folder ++ "/" ++ clean key)
  /\ String.length (joinObjectPath folder key)
     <= String.length folder + 1 + String.length key.
Proof.
  pose proof (clean_occurs folder) as Hf. pose proof (clean_occurs key) as Hk.
  pose proof (occursIn_length _ _ Hf). pose proof (occursIn_length _ _ Hk).
  repeat split; try assumption; unfold joinObjectPath;
    destruct (clean folder =? ""); auto.
  - lia.
  - rewrite !app_length. simpl. lia.
Qed.

(** X8.  The handler trims the folder and the key before it calls
    [joinObjectPath], which trims them again: the object path of a request,
    and so the target handed to the tool, is [joinObjectPath] of the folder
    and the key as the request gave them. *)
Theorem objectPath_of_raw_fields (req : PresignRequest) :
  objectPathOf req = joinObjectPath (Folder req) (Key req)
  /\ (forall (r : Request) (st : State),
        passesValidation r req ->
        spawned (presignHandler r st)
        = (spawned st
           ++ [["mc"; "share"; "download"; "--expire"; expirationOf req;
                (getenv "MINIO_ALIAS" "myminio" ++ "/" ++ TrimSpace (Bucket req) ++ "/"
                 ++ joinObjectPath (Folder req) (Key req))%string]])%list
        /\ spawned (Alt.presignHandler r st) = spawned (presignHandler r st)).
Proof.
  assert (E : objectPathOf req = joinObjectPath (Folder req) (Key req)).
  { unfold objectPathOf, joinObjectPath. now rewrite !clean_TrimSpace. }
  split; [exact E |]. intros r st Hv.
  rewrite (presignHandler_spawned r req st Hv), (Alt_presignHandler_spawned r req st Hv).
  unfold commandLine, signingTarget. now rewrite E.
Qed.

End ObjectPathMore.

(* ================================================================= *)
(** ** More on the line-anchored parser *)

Section ShareLineMore.

Lemma occursIn_cons (c : ascii) (l s : string) : occursIn l s -> occursIn l (String c s).
Proof. intros (p & q & ->). now exists (String c p), q. Qed.

(** The first line is the beginning of the text, and every line is a part
    of it. *)
Lemma SplitLines_occurs (s : string) :
  (exists l ls t, SplitLines s = l :: ls /\ s = l ++ t)
  /\ forall l, In l (SplitLines s) -> occursIn l s.
Proof.
  induction s as [|c s [(l0 & ls & t & E & Ht) IH]].
  - split.
    + now exists "", [], "".
    + intros l [<- | []]. apply occursIn_refl.
  - cbn [SplitLines]. destruct (Ascii.eqb c newline).
    + split.
      * now exists "", (SplitLines s), (String c s).
      * intros l [<- | Hl].
        -- now exists "", (String c s).
        -- apply occursIn_cons, IH, Hl.
    + rewrite E. split.
      * exists (String c l0), ls, t. split; [reflexivity |]. simpl. now rewrite <- Ht.
      * intros l [<- | Hl].
        -- exists "", t. simpl. now rewrite <- Ht.
        -- apply occursIn_cons, IH. rewrite E. now right.
Qed.

(** Splitting a text at a line feed splits its lines. *)
Lemma SplitLines_app (a b : string) :
  SplitLines (a ++ String newline b) = (SplitLines a ++ SplitLines b)%list.
Proof.
  induction a as [|c a IH].
  - reflexivity.
  - cbn [append SplitLines]. destruct (Ascii.eqb c newline).
    + now rewrite IH.
    + rewrite IH. pose proof (SplitLines_nonempty a) as Hn.
      destruct (SplitLines a); [contradiction | reflexivity].
Qed.

Lemma scanShare_decided (la lb : list string) :
  (forall e, scanShare la = Err e -> e = "Share line present but empty") ->
  scanShare (la ++ lb) = scanShare la.
Proof.
  induction la as [|l la IH]; intros H.
  - specialize (H _ eq_refl). discriminate H.
  - cbn [List.app scanShare] in *.
    destruct (HasPrefix (TrimSpace l) "Share:"); [reflexivity | now apply IH].
Qed.

(** X9.  The URL [extractShareURL] returns is not empty, has white space at
    neither end, and is a contiguous part of the output it was given. *)
Theorem extractShareURL_result (out u : string) :
  extractShareURL out = Ok u ->
  u <> "" /\ leadingSpace u = false /\ trailingSpace u = false /\ occursIn u out.
Proof.
  unfold extractShareURL. intros H.
  destruct (first_share_line (SplitLines out))
    as [Hn | (pre & line & post & rem & E & Hpre & Hline)].
  - rewrite (scanShare_none _ Hn) in H. discriminate.
  - rewrite E, (scanShare_skip _ _ Hpre), (scanShare_hit _ _ _ Hline) in H.
    destruct (String.eqb_spec (TrimSpace rem) "") as [E0 | E0]; [discriminate |].
    injection H as <-.
    destruct (TrimSpace_clean rem) as [Hl Hr].
    repeat split; try assumption.
    eapply occursIn_trans; [apply TrimSpace_occurs |].
    eapply occursIn_trans; [exists "Share:", ""; rewrite app_empty_r; reflexivity |].
    rewrite <- Hline.
    eapply occursIn_trans; [apply TrimSpace_occurs |].
    apply SplitLines_occurs. rewrite E. apply List.in_or_app. right. now left.
Qed.

(** X10.  Only the lines up to the first marked one count.  Lines before it
    that do not begin with the marker are skipped, and once a text has a
    marked line, further lines appended to it do not change the result,
    whether that is a URL or the error for an empty remainder. *)
Theorem extractShareURL_local (a b : string) :
  (Forall noShare (SplitLines a) ->
   extractShareURL (a ++ String newline b) = extractShareURL b)
  /\ (extractShareURL a <> Err "could not find Share: line in mc output" ->
      extractShareURL (a ++ String newline b) = extractShareURL a).
Proof.
  unfold extractShareURL. rewrite SplitLines_app. split.
  - intros H. now apply scanShare_skip.
  - intros H. apply scanShare_decided. intros e He.
    destruct (first_share_line (SplitLines a))
      as [Hn | (pre & line & post & rem & E & Hpre & Hline)].
    + rewrite (scanShare_none _ Hn) in H. now elim H.
    + rewrite E, (scanShare_skip _ _ Hpre), (scanShare_hit _ _ _ Hline) in He.
      destruct (TrimSpace rem =? ""); [now injection He | discriminate].
Qed.

End ShareLineMore.

(* ================================================================= *)
(** ** The pattern extractor of the older variant *)

Section FirstURL.

(** The run [takeRun] takes is the longest beginning made of bytes of the
    class. *)
Lemma takeRun_spec (s : string) :
  exists rest,
    s = takeRun s ++ rest
    /\ allBytes urlByte (takeRun s) = true
    /\ (rest = "" \/ exists c t, rest = String c t /\ urlByte c = false).
Proof.
  induction s as [|a s (rest & E & Hall & Hrest)].
  - exists "". repeat split. now left.
  - cbn [takeRun]. destruct (urlByte a) eqn:Ea.
    + exists rest. cbn [append allBytes]. rewrite Ea, Hall. repeat split; auto.
      now rewrite <- E.
    + exists (String a s). repeat split. right. now exists a, s.
Qed.

Lemma takeRun_empty (s : string) :
  takeRun s = "" <-> ~ exists c t, s = String c t /\ urlByte c = true.
Proof.
  destruct s as [|a s]; cbn [takeRun].
  - split; [intros _ (c & t & E & _); discriminate | reflexivity].
  - destruct (urlByte a) eqn:Ea; split.
    + discriminate.
    + intros H. elim H. now exists a, s.
    + intros _ (c & t & E & Hc). injection E as <- <-. congruence.
    + reflexivity.
Qed.

Lemma matchHere_https (r : string) :
  matchHere ("https://" ++ r)
  = if takeRun r =? "" then None else Some ("https://" ++ takeRun r).
Proof.
  unfold matchHere. rewrite HasPrefix_app.
  change (String.length "https://") with 8. cbn [append sliceFrom].
  destruct (takeRun r =? ""); reflexivity.
Qed.

Lemma matchHere_http (r : string) :
  matchHere ("http://" ++ r)
  = if takeRun r =? "" then None else Some ("http://" ++ takeRun r).
Proof.
  unfold matchHere. rewrite HasPrefix_app.
  change (String.length "http://") with 7. cbn [append sliceFrom].
  replace (HasPrefix (String "h" (String "t" (String "t" (String "p"
             (String ":" (String "/" (String "/" r))))))) "https://")
    with false by reflexivity.
  destruct (takeRun r =? ""); reflexivity.
Qed.

Lemma matchHere_other (s : string) :
  HasPrefix s "https://" = false -> HasPrefix s "http://" = false ->
  matchHere s = None.
Proof. intros H1 H2. unfold matchHere. now rewrite H1, H2. Qed.

(** [matchHere] finds a match exactly where the text begins with a URL. *)
Lemma matchHere_None (s : string) : matchHere s = None <-> ~ startsURL s.
Proof.
  destruct (HasPrefix s "https://") eqn:E1.
  { apply HasPrefix_iff in E1 as [r ->]. rewrite matchHere_https.
    destruct (String.eqb_spec (takeRun r) "") as [E | E].
    - split; [| reflexivity]. intros _ (c & rest & Hc & [H | H]).
      + discriminate H.
      + cbn [append] in H. injection H as ->. cbn [takeRun] in E. rewrite Hc in E.
        discriminate.
    - split; [discriminate |]. intros H. elim H.
      destruct r as [|c t]; [now elim E |]. cbn [takeRun] in E.
      destruct (urlByte c) eqn:Hc; [| now elim E]. exists c, t. auto. }
  destruct (HasPrefix s "http://") eqn:E2.
  { apply HasPrefix_iff in E2 as [r ->]. rewrite matchHere_http.
    destruct (String.eqb_spec (takeRun r) "") as [E | E].
    - split; [| reflexivity]. intros _ (c & rest & Hc & [H | H]).
      + cbn [append] in H. injection H as ->. cbn [takeRun] in E. rewrite Hc in E.
        discriminate.
      + discriminate H.
    - split; [discriminate |]. intros H. elim H.
      destruct r as [|c t]; [now elim E |]. cbn [takeRun] in E.
      destruct (urlByte c) eqn:Hc; [| now elim E]. exists c, t. auto. }
  rewrite (matchHere_other s E1 E2). split; [| reflexivity].
  intros _ (c & rest & _ & [-> | ->]).
  - now rewrite HasPrefix_app in E2.
  - now rewrite HasPrefix_app in E1.
Qed.

(** What a match is made of. *)
Lemma matchHere_Some (s m : string) :
  matchHere s = Some m ->
  exists scheme run rest,
    (scheme = "http://" \/ scheme = "https://")
    /\ m = scheme ++ run /\ run <> ""
    /\ allBytes urlByte run = true
    /\ s = m ++ rest
    /\ (rest = "" \/ exists c t, rest = String c t /\ urlByte c = false).
Proof.
  intros H. destruct (HasPrefix s "https://") eqn:E1.
  { apply HasPrefix_iff in E1 as [r ->]. rewrite matchHere_https in H.
    destruct (String.eqb_spec (takeRun r) "") as [E | E]; [discriminate |].
    injection H as <-. destruct (takeRun_spec r) as (rest & Hr & Hall & Hrest).
    exists "https://", (takeRun r), rest. repeat split; auto.
    cbn [append]. now rewrite <- Hr. }
  destruct (HasPrefix s "http://") eqn:E2.
  { apply HasPrefix_iff in E2 as [r ->]. rewrite matchHere_http in H.
    destruct (String.eqb_spec (takeRun r) "") as [E | E]; [discriminate |].
    injection H as <-. destruct (takeRun_spec r) as (rest & Hr & Hall & Hrest).
    exists "http://", (takeRun r), rest. repeat split; auto.
    cbn [append]. now rewrite <- Hr. }
  rewrite (matchHere_other s E1 E2) in H. discriminate.
Qed.

End FirstURL.

Section FirstURLResult.

Lemma FindString_unfold (s : string) :
  FindString s
  = match matchHere s with
    | Some m => m
    | None => match s with String _ r => FindString r | EmptyString => "" end
    end.
Proof. destruct s; reflexivity. Qed.

Lemma matchHere_nonempty (s m : string) : matchHere s = Some m -> m <> "".
Proof.
  intros H. destruct (matchHere_Some s m H) as (scheme & run & rest & Hs & -> & _).
  destruct Hs as [-> | ->]; discriminate.
Qed.

(** [FindString] returns the match at the first place where there is one,
    and the empty text when there is none. *)
Lemma FindString_spec (s : string) :
  (FindString s = "" /\ forall pre t, s = pre ++ t -> matchHere t = None)
  \/ exists pre t m,
       s = pre ++ t /\ matchHere t = Some m /\ FindString s = m
       /\ forall pre' t',
            s = pre' ++ t' -> String.length pre' < String.length pre ->
            matchHere t' = None.
Proof.
  induction s as [|c s IH].
  - left. split; [reflexivity |]. intros [|? ?] t E; [| discriminate].
    simpl in E. now subst t.
  - rewrite FindString_unfold. destruct (matchHere (String c s)) as [m |] eqn:Em.
    + right. exists "", (String c s), m. repeat split; auto.
      intros pre' t' _ Hl. simpl in Hl. lia.
    + destruct IH as [(E & Hnone) | (pre & t & m & E & Hm & Hf & Hleft)].
      * left. split; [exact E |]. intros [|x pre] t Ht.
        -- simpl in Ht. now subst.
        -- injection Ht as _ Ht. now apply (Hnone pre).
      * right. exists (String c pre), t, m. repeat split; auto.
        -- simpl. now rewrite <- E.
        -- intros [|x pre'] t' Ht Hl.
           ++ simpl in Ht. now subst.
           ++ injection Ht as _ Ht. apply (Hleft pre' t' Ht). simpl in Hl. lia.
Qed.

(** X11.  The URL [extractFirstURL] returns is [http://] or [https://]
    followed by at least one byte, none of which is white space or a
    quote.  It is a contiguous part of the output, it is not cut short (the
    output ends after it, or goes on with a byte outside the class), and no
    URL begins before it. *)
Theorem extractFirstURL_result (s m : string) :
  extractFirstURL s = Ok m ->
  exists scheme run pre post,
    (scheme = "http://" \/ scheme = "https://")
    /\ m = scheme ++ run /\ run <> ""
    /\ allBytes urlByte run = true
    /\ s = pre ++ m ++ post
    /\ (post = "" \/ exists c t, post = String c t /\ urlByte c = false)
    /\ forall pre' t',
         s = pre' ++ t' -> String.length pre' < String.length pre -> ~ startsURL t'.
Proof.
  unfold extractFirstURL. intros H.
  destruct (FindString_spec s) as [(E & _) | (pre & t & m' & E & Hm & Hf & Hleft)].
  - rewrite E in H. discriminate.
  - rewrite Hf in H.
    destruct (String.eqb_spec m' "") as [E0 | E0]; [discriminate |]. injection H as <-.
    destruct (matchHere_Some t m' Hm) as (scheme & run & rest & Hs & Hrun & Hne & Hall & Ht & Hrest).
    exists scheme, run, pre, rest. repeat split; auto.
    + now rewrite <- Ht.
    + intros pre' t' E' Hl. apply matchHere_None. now apply (Hleft pre').
Qed.

(** X12.  [extractFirstURL] fails exactly when at no place of the output
    one of the two schemes is followed by a byte that is neither white
    space nor a quote. *)
Theorem extractFirstURL_fails_iff (s : string) :
  (exists e, extractFirstURL s = Err e)
  <-> forall pre t, s = pre ++ t -> ~ startsURL t.
Proof.
  unfold extractFirstURL.
  destruct (FindString_spec s) as [(E & Hnone) | (pre & t & m & E & Hm & Hf & _)].
  - rewrite E. split.
    + intros _ pre t Ht. apply matchHere_None. now apply (Hnone pre).
    + intros _. eexists. reflexivity.
  - rewrite Hf. pose proof (matchHere_nonempty t m Hm) as Hne.
    apply String.eqb_neq in Hne. rewrite Hne. split.
    + intros [e He]. discriminate.
    + intros Hall. exfalso.
      pose proof (proj2 (matchHere_None t) (Hall pre t E)) as Hnone. congruence.
Qed.

End FirstURLResult.

(* ================================================================= *)
(** ** More on the auth gate and the environment *)

Section GateMore.

Context {P : Platform}.

Local Open Scope Z_scope.

(** X13.  The gate forwards every request for [/health], whatever the
    configuration and the headers.  On its own it answers in two ways
    only: 500 when no secret is configured, 401 when one is; in every other
    case the outcome is that of the handler behind it, and the gate itself
    runs no command. *)
Theorem gate_outcomes (next : Handler) (r : Request) (st : State) :
  (Path r = "/health"%string -> withAuth next r st = next r st)
  /\ (withAuth next r st = next r st
      \/ (TrimSpace (os_Getenv "API_TOKEN") = ""%string
          /\ withAuth next r st
             = errorJSON StatusInternalServerError "API_TOKEN is not set on server" st)
      \/ (TrimSpace (os_Getenv "API_TOKEN") <> ""%string
          /\ withAuth next r st = errorJSON StatusUnauthorized "unauthorized" st))
  /\ (withAuth next r st <> next r st -> spawned (withAuth next r st) = spawned st).
Proof.
  assert (Hh : Path r = "/health"%string -> withAuth next r st = next r st).
  { intros E. unfold withAuth. now rewrite E. }
  assert (Hc : withAuth next r st = next r st
               \/ (TrimSpace (os_Getenv "API_TOKEN") = ""%string
                   /\ withAuth next r st
                      = errorJSON StatusInternalServerError
                          "API_TOKEN is not set on server" st)
               \/ (TrimSpace (os_Getenv "API_TOKEN") <> ""%string
                   /\ withAuth next r st = errorJSON StatusUnauthorized "unauthorized" st)).
  { destruct (String.eqb_spec (Path r) "/health") as [E | E]; [left; now apply Hh |].
    destruct (String.eqb_spec (TrimSpace (os_Getenv "API_TOKEN")) "") as [Et | Et].
    - right. left. split; [exact Et |]. unfold withAuth.
      apply String.eqb_neq in E. now rewrite E, Et.
    - rewrite (withAuth_decision next r st E Et). cbv zeta.
      destruct (_ || _); [now left | right; right; now split]. }
  split; [exact Hh |]. split; [exact Hc |].
  intros Hne. destruct Hc as [E | [(_ & E) | (_ & E)]]; [contradiction | |]; now rewrite E.
Qed.

(** X14.  With a secret configured, a request for a path other than
    [/health] in which the secret occurs neither in the [x-api-token]
    header nor in the [Authorization] header is answered 401: nothing but
    the secret itself, present in one of the two headers, authorises. *)
Theorem secret_must_occur (next : Handler) (r : Request) (st : State) :
  Path r <> "/health"%string ->
  TrimSpace (os_Getenv "API_TOKEN") <> ""%string ->
  ~ occursIn (TrimSpace (os_Getenv "API_TOKEN")) (HeaderGet r "x-api-token") ->
  ~ occursIn (TrimSpace (os_Getenv "API_TOKEN")) (HeaderGet r "Authorization") ->
  withAuth next r st = errorJSON StatusUnauthorized "unauthorized" st.
Proof.
  intros Hp Ht H1 H2. rewrite (withAuth_decision next r st Hp Ht). cbv zeta.
  destruct (_ || _) eqn:E; [| reflexivity]. exfalso.
  apply decision_presents in E. destruct E as [E | (scheme & rest & Eh & _ & Er)].
  - apply H1. rewrite <- E. apply TrimSpace_occurs.
  - apply H2. rewrite <- Er.
    eapply occursIn_trans; [apply TrimSpace_occurs |].
    eapply occursIn_trans; [| apply TrimSpace_occurs].
    rewrite Eh. exists scheme, ""%string. now rewrite app_empty_r.
Qed.


End GateMore.

(* ================================================================= *)
(** ** Durations and their texts *)

Section Durations.

Local Open Scope Z_scope.

Lemma uint_digits (d : Decimal.uint) :
  allBytes decimalDigit (NilEmpty.string_of_uint d) = true.
Proof. induction d; cbn [NilEmpty.string_of_uint allBytes]; try rewrite IHd; reflexivity. Qed.

(** The decimal text of a number that is not negative is made of digits and
    is not empty. *)
Lemma FormatInt_digits (n : Z) :
  0 <= n -> allBytes decimalDigit (FormatInt n) = true /\ FormatInt n <> ""%string.
Proof.
  intros Hn. unfold FormatInt. destruct n as [| p | p]; [split; [reflexivity | discriminate] | | lia].
  cbn [Z.to_int NilZero.string_of_int]. unfold NilZero.string_of_uint.
  pose proof (DecimalPos.Unsigned.to_uint_nonnil p) as Hp.
  destruct (Pos.to_uint p) as [| u | u | u | u | u | u | u | u | u | u];
    [now elim Hp | ..]; (split; [apply uint_digits | discriminate]).
Qed.

Lemma to_int_proper (n : Z) :
  Z.to_int n <> Decimal.Pos Decimal.Nil /\ Z.to_int n <> Decimal.Neg Decimal.Nil.
Proof.
  destruct n as [| p | p]; cbn [Z.to_int]; split; try discriminate;
    intros H; injection H as H; now apply DecimalPos.Unsigned.to_uint_nonnil in H.
Qed.

(** Different numbers have different decimal texts. *)
Lemma FormatInt_inj (a b : Z) : FormatInt a = FormatInt b -> a = b.
Proof.
  unfold FormatInt. intros H. apply DecimalZ.to_int_inj.
  destruct (to_int_proper a) as [A1 A2]. destruct (to_int_proper b) as [B1 B2].
  pose proof (NilZero.isi _ A1 A2) as Ia. pose proof (NilZero.isi _ B1 B2) as Ib.
  rewrite H in Ia. rewrite Ia in Ib. now injection Ib.
Qed.

(** Two texts that are digits followed by a unit letter are equal only
    piece by piece. *)
Lemma unit_split (a a' : string) (u u' : ascii) (r r' : string) :
  allBytes decimalDigit a = true -> allBytes decimalDigit a' = true ->
  decimalDigit u = false -> decimalDigit u' = false ->
  (a ++ String u r)%string = (a' ++ String u' r')%string ->
  a = a' /\ u = u' /\ r = r'.
Proof.
  revert a'. induction a as [|x a IH]; intros [|x' a'] Ha Ha' Hu Hu' E;
    cbn [append allBytes] in *.
  - now injection E.
  - injection E as -> _. apply andb_true_iff in Ha' as [Hx _]. congruence.
  - injection E as -> _. apply andb_true_iff in Ha as [Hx _]. congruence.
  - injection E as -> E. apply andb_true_iff in Ha as [_ Ha].
    apply andb_true_iff in Ha' as [_ Ha'].
    destruct (IH a' Ha Ha' Hu Hu' E) as (-> & -> & ->). auto.
Qed.

Lemma component_nonzero (n : Z) (u : ascii) (rest : string) :
  n <> 0 ->
  (component n (String u "") ++ rest)%string = (FormatInt n ++ String u rest)%string.
Proof.
  intros H. unfold component. apply Z.eqb_neq in H. rewrite H.
  now rewrite app_assoc'.
Qed.

Lemma component_zero (u : string) (rest : string) :
  (component 0 u ++ rest)%string = rest.
Proof. reflexivity. Qed.

(** X16.  Distinct durations never share a text: two triples of days,
    hours and minutes, none negative and the first not all zero, that
    [buildExpire] renders alike are the same triple. *)
Theorem buildExpire_injective (d h m d' h' m' : Z) :
  0 <= d -> 0 <= h -> 0 <= m -> 0 <= d' -> 0 <= h' -> 0 <= m' ->
  ~ (d = 0 /\ h = 0 /\ m = 0) ->
  buildExpire d h m = buildExpire d' h' m' ->
  d = d' /\ h = h' /\ m = m'.
Proof.
  intros Hd Hh Hm Hd' Hh' Hm' Hnz E.
  assert (Hnz' : ~ (d' = 0 /\ h' = 0 /\ m' = 0)).
  { intros (-> & -> & ->). change (buildExpire 0 0 0) with ""%string in E.
    now apply (buildExpire_nonempty d h m). }
  rewrite !buildExpire_components in E by assumption.
  rewrite <- (app_empty_r (component m "m")), <- (app_empty_r (component m' "m")) in E.
  pose proof (FormatInt_digits d Hd) as [Dd _]. pose proof (FormatInt_digits h Hh) as [Dh _].
  pose proof (FormatInt_digits m Hm) as [Dm _]. pose proof (FormatInt_digits d' Hd') as [Dd' _].
  pose proof (FormatInt_digits h' Hh') as [Dh' _]. pose proof (FormatInt_digits m' Hm') as [Dm' _].
  destruct (Z.eq_dec d 0) as [-> | Nd]; destruct (Z.eq_dec h 0) as [-> | Nh];
    destruct (Z.eq_dec m 0) as [-> | Nm]; destruct (Z.eq_dec d' 0) as [-> | Nd'];
    destruct (Z.eq_dec h' 0) as [-> | Nh']; destruct (Z.eq_dec m' 0) as [-> | Nm'];
    try (exfalso; apply Hnz; now repeat split);
    try (exfalso; apply Hnz'; now repeat split);
    rewrite ?component_zero, ?component_nonzero in E by assumption;
    repeat
      match type of E with
      | (FormatInt ?a ++ String ?u ?r)%string = (FormatInt ?b ++ String ?v ?s)%string =>
          let Ea := fresh "Ea" in let Eu := fresh "Eu" in
          apply unit_split in E; [| assumption | assumption | reflexivity | reflexivity];
          destruct E as (Ea & Eu & E); apply FormatInt_inj in Ea; try discriminate Eu
      end;
    try (exfalso; symmetry in E; now apply app_nonempty_r in E);
    try (exfalso; now apply app_nonempty_r in E);
    subst; now repeat split.
Qed.

End Durations.

(* ================================================================= *)
(** ** The health check *)

Section Health.

Context {P : Platform}.

Local Open Scope Z_scope.

(** X17.  A request for [/health] through the gate is answered by
    [healthHandler] whatever its method, headers and body and whatever the
    configuration: on a writer with no status yet the status is 200, the
    two bytes [ok] are added to the body, the headers are left as they are
    and no command is run. *)
Theorem health_always_ok (r : Request) (st : State) :
  Path r = "/health"%string ->
  Code (w st) = None ->
  Code (w (withAuth healthHandler r st)) = Some 200
  /\ Body (w (withAuth healthHandler r st)) = (Body (w st) ++ [Bytes "ok"])%list
  /\ Header (w (withAuth healthHandler r st)) = Header (w st)
  /\ spawned (withAuth healthHandler r st) = spawned st.
Proof.
  intros Hp Hc. unfold withAuth. rewrite Hp. cbn [String.eqb Ascii.eqb Bool.eqb].
  unfold healthHandler, onWriter, Write, WriteHeader. cbn [w spawned].
  rewrite Hc. cbn [Code Body Header]. repeat split.
Qed.

End Health.

(* ================================================================= *)
(** ** The further statements at concrete inputs *)

Section MoreExamples.

Local Open Scope Z_scope.

Lemma occursIn_empty (m : string) : occursIn m "" -> m = ""%string.
Proof.
  intros ([|? ?] & post & E); [| discriminate]. destruct m; [reflexivity | discriminate].
Qed.

(** X1 at a request that passes validation. *)
Lemma command_iff_validation_witness :
  spawned (@presignHandler (fakePlatform envToken reqPdf (toolPrints shareOutput))
             (post noHeaders) start)
  = [["mc"; "share"; "download"; "--expire"; "10m"; "myminio/b/f.pdf"]%string]
  /\ spawned (@Alt.presignHandler (fakePlatform envToken reqPdf (toolPrints shareOutput))
                (post noHeaders) start)
     = [["mc"; "share"; "download"; "--expire"; "10m"; "myminio/b/f.pdf"]%string].
Proof.
  refine (proj1 (@command_iff_validation
                   (fakePlatform envToken reqPdf (toolPrints shareOutput))
                   (post noHeaders) start) reqPdf _).
  apply fake_passes; discriminate.
Defined.

(** X4 at a successful run. *)
Lemma answer_reports_command_witness :
  spawned (@presignHandler (fakePlatform envToken reqPdf (toolPrints shareOutput))
             (post noHeaders) start)
  = [["mc"; "share"; "download"; "--expire"; "10m"; "myminio/b/f.pdf"]%string]
  /\ "b"%string <> ""%string /\ "10m"%string <> ""%string.
Proof.
  refine (proj1 (@answer_reports_command
                   (fakePlatform envToken reqPdf (toolPrints shareOutput))
                   (post noHeaders) start
                   {| URL := "https://s3.local/b/f.pdf?sig=z"; Object := "f.pdf";
                      RespBucket := "b"; ExpiresIn := "10m" |}) _).
  reflexivity.
Defined.

(** X5 at a run that is killed at the deadline. *)
Lemma variants_agree_witness :
  @Alt.presignHandler (fakePlatform envToken reqPdf toolTimesOut) (post noHeaders) start
  = @presignHandler (fakePlatform envToken reqPdf toolTimesOut) (post noHeaders) start.
Proof.
  refine (@variants_agree (fakePlatform envToken reqPdf toolTimesOut)
            (post noHeaders) start _ _).
  - discriminate.
  - intros req _. split; [reflexivity | left; reflexivity].
Defined.

(** X6 at a nested folder. *)
Lemma joinObjectPath_verbatim_witness :
  ("invoices/2024"%string = ""%string ->
   joinObjectPath "invoices/2024" "file.pdf" = "file.pdf"%string)
  /\ ("invoices/2024"%string <> ""%string ->
      joinObjectPath "invoices/2024" "file.pdf" = "invoices/2024/file.pdf"%string).
Proof.
  refine (joinObjectPath_verbatim "invoices/2024" "file.pdf" _ _ _ _ _ _ _ _);
    reflexivity.
Defined.

(** X9 at the output of a successful run. *)
Lemma extractShareURL_result_witness :
  "https://s3.local/b/f.pdf?sig=z"%string <> ""%string
  /\ leadingSpace "https://s3.local/b/f.pdf?sig=z" = false
  /\ trailingSpace "https://s3.local/b/f.pdf?sig=z" = false
  /\ occursIn "https://s3.local/b/f.pdf?sig=z" shareOutput.
Proof.
  refine (extractShareURL_result shareOutput "https://s3.local/b/f.pdf?sig=z" _).
  reflexivity.
Defined.

(** X10 at a banner printed before the output of a successful run. *)
Lemma extractShareURL_local_witness :
  extractShareURL ("mc: Configuration written" ++ String newline shareOutput)
  = extractShareURL shareOutput.
Proof.
  refine (proj1 (extractShareURL_local "mc: Configuration written" shareOutput) _).
  repeat constructor.
Defined.

(** X11 at an output whose first URL is followed by a space. *)
Lemma extractFirstURL_result_witness :
  exists scheme run pre post,
    (scheme = "http://"%string \/ scheme = "https://"%string)
    /\ "https://x/y"%string = (scheme ++ run)%string /\ run <> ""%string
    /\ allBytes urlByte run = true
    /\ "Share: https://x/y z"%string = (pre ++ "https://x/y" ++ post)%string
    /\ (post = ""%string \/ exists c t, post = String c t /\ urlByte c = false)
    /\ forall pre' t',
         "Share: https://x/y z"%string = (pre' ++ t')%string ->
         (String.length pre' < String.length pre)%nat -> ~ startsURL t'.
Proof.
  refine (extractFirstURL_result "Share: https://x/y z" "https://x/y" _).
  reflexivity.
Defined.

(** X14 at a request without credentials. *)
Lemma secret_must_occur_witness :
  @withAuth (fakePlatform envToken reqPdf (toolPrints shareOutput))
    healthHandler (post noHeaders) start
  = errorJSON StatusUnauthorized "unauthorized" start.
Proof.
  refine (@secret_must_occur (fakePlatform envToken reqPdf (toolPrints shareOutput))
            healthHandler (post noHeaders) start _ _ _ _).
  - discriminate.
  - discriminate.
  - intros H. apply occursIn_empty in H. discriminate H.
  - intros H. apply occursIn_empty in H. discriminate H.
Defined.

(** X16 at two requests for one day and thirty minutes. *)
Lemma buildExpire_injective_witness :
  1 = 1 /\ 0 = 0 /\ 30 = 30.
Proof.
  refine (buildExpire_injective 1 0 30 1 0 30 _ _ _ _ _ _ _ _);
    try discriminate; try reflexivity.
  intros (H & _). discriminate H.
Defined.

(** X17 at a health check with no secret configured. *)
Lemma health_always_ok_witness :
  Code (w (@withAuth (fakePlatform envEmpty reqPdf toolTimesOut) healthHandler
             {| Method := "GET"; Path := "/health"; HeaderGet := noHeaders;
                ReqBody := None |} start)) = Some 200
  /\ Body (w (@withAuth (fakePlatform envEmpty reqPdf toolTimesOut) healthHandler
                {| Method := "GET"; Path := "/health"; HeaderGet := noHeaders;
                   ReqBody := None |} start)) = ([] ++ [Bytes "ok"])%list
  /\ Header (w (@withAuth (fakePlatform envEmpty reqPdf toolTimesOut) healthHandler
                  {| Method := "GET"; Path := "/health"; HeaderGet := noHeaders;
                     ReqBody := None |} start)) = []
  /\ spawned (@withAuth (fakePlatform envEmpty reqPdf toolTimesOut) healthHandler
                {| Method := "GET"; Path := "/health"; HeaderGet := noHeaders;
                   ReqBody := None |} start) = [].
Proof.
  refine (@health_always_ok (fakePlatform envEmpty reqPdf toolTimesOut)
            {| Method := "GET"; Path := "/health"; HeaderGet := noHeaders;
               ReqBody := None |} start _ _); reflexivity.
Defined.

(** X8 at a request whose folder and key are padded. *)
Lemma objectPath_of_raw_fields_witness :
  spawned (@presignHandler
             (fakePlatform envToken (mkRequest "b" " /docs/ " " f.pdf " 0 1 0)
                (toolPrints shareOutput)) (post noHeaders) start)
  = [["mc"; "share"; "download"; "--expire"; "1h"; "myminio/b/docs/f.pdf"]%string]
  /\ spawned (@Alt.presignHandler
                (fakePlatform envToken (mkRequest "b" " /docs/ " " f.pdf " 0 1 0)
                   (toolPrints shareOutput)) (post noHeaders) start)
     = spawned (@presignHandler
                  (fakePlatform envToken (mkRequest "b" " /docs/ " " f.pdf " 0 1 0)
                     (toolPrints shareOutput)) (post noHeaders) start).
Proof.
  refine (proj2 (@objectPath_of_raw_fields
                   (fakePlatform envToken (mkRequest "b" " /docs/ " " f.pdf " 0 1 0)
                      (toolPrints shareOutput))
                   (mkRequest "b" " /docs/ " " f.pdf " 0 1 0))
            (post noHeaders) start _).
  apply fake_passes; discriminate.
Defined.

(** X12 at an empty output. *)
Lemma extractFirstURL_fails_iff_witness :
  exists e, extractFirstURL "" = Err e.
Proof.
  refine (proj2 (extractFirstURL_fails_iff "") _).
  intros [|? ?] t E; [| discriminate E]. simpl in E. subst t.
  intros (c & rest & _ & [H | H]); discriminate H.
Defined.

(** X13 at a health check on a server with no secret. *)
Lemma gate_outcomes_witness :
  @withAuth (fakePlatform envEmpty reqPdf toolTimesOut) healthHandler
    {| Method := "GET"; Path := "/health"; HeaderGet := noHeaders; ReqBody := None |}
    start
  = healthHandler
      {| Method := "GET"; Path := "/health"; HeaderGet := noHeaders; ReqBody := None |}
      start.
Proof.
  refine (proj1 (@gate_outcomes (fakePlatform envEmpty reqPdf toolTimesOut) healthHandler
                   {| Method := "GET"; Path := "/health"; HeaderGet := noHeaders;
                      ReqBody := None |} start) _).
  reflexivity.
Defined.


End MoreExamples.
